(* ===== verification/_CoqProject ===== *)
-Q . S2P
Prelude.v
PyRuntime.v
Timing.v
Speech.v
Http.v
JsonDumps.v
Scripted.v
Init.v
Handler.v
HandlerSpec.v
