(* ===== verification/Prelude.v ===== *)
(** * Verification of [src/Funções em Python/function_app.py]

    The repository is one Azure Function written in Python.  At import time
    the module reads two settings from the environment ([SPEECH_KEY],
    [SPEECH_REGION]) and builds a process-wide Azure Speech synthesizer
    (lines 8-25); when any step of that construction raises an
    [Exception], the module keeps [speech_synthesizer = None] and prints a
    diagnostic.  The HTTP handler [main] (lines 28-81) then, for each
    request: refuses with 500 when the synthesizer is missing; reads
    [time.perf_counter()]; decodes the JSON body ([req.get_json()], whose
    [ValueError] gives 400); checks that the body is truthy and contains
    ['text'] (else 400); reads the clock again, calls
    [speak_text_async(text).get()], reads the clock, answers 500 when the
    result reason is not [SynthesizingAudioCompleted], and otherwise reads
    the clock a last time and answers 200 with a JSON body holding the two
    durations rounded by [round(_, 2)]; any [Exception] raised in the
    second [try] is answered with 500 and its text.  The two parts share
    the global [speech_synthesizer]; the handler talks to the Speech SDK
    and to the [json] module, both outside the repository.

    ** Files, in dependency order

    - [Prelude] (this file): the monad [PyM] in which Python statement
      sequences are modelled (state passing, exceptions, early [return]),
      its notation [let! x := c in k] in [py_scope], its laws, the hint
      databases [py] and [pyrun], and the closure [star] of a step
      relation with the uniqueness of final states.
    - [PyRuntime]: the CPython semantics the code relies on: exception
      classes and their hierarchy ([isinstance], for [except ValueError]
      and [except Exception]), the objects [json.loads] returns
      ([pyobj]), truthiness ([not x]), [in] with a [str] needle on dict,
      list and str (any other type raises [TypeError]), [dict.get] (any
      other type raises [AttributeError]), [try]/[except] ([py_try]).
    - [Timing]: [time.perf_counter] as the next reading of a clock kept in
      the state, durations [(t1 - t0) * 1000], Python's [round(x, 2)]
      (half to even) with its monotonicity, non-negativity and error bound.
    - [Speech]: the Azure Speech SDK as the code sees it: the
      [ResultReason] enum and its [str()], the configuration records, and
      the class [SpeechSdk] (constructors that may raise, the blocking
      synthesis call over an abstract service state).
    - [Http]: [func.HttpRequest]/[func.HttpResponse] and the class
      [JsonCodec] ([json.loads] behind [req.get_json()], [json.dumps]).
    - [JsonDumps]: [json.dumps] with CPython's separators, escapes and
      float [repr], partial outside the fragment the handler produces.
    - [Scripted]: concrete instances for the spec's scenarios: a service
      answering from a queue of replies, the same with the SDK's check
      that an audio sink is given, a decoder by table.
    - [Init] (lines 7-25): [build_synthesizer] (the [try]/[except]) and
      [init_module] (the globals after import, or the exception that makes
      the import fail).
    - [Handler] (lines 28-81): [check_ready], [perf_counter], [read_text]
      with [text_missing], [synthesize], [main_body] composed in source
      order, and [main], whose result is the returned [HttpResponse] or
      the exception that escapes; [handler_path] lists the seven ways
      [main] can end and [main_path_iff] shows it ends exactly along them.
    - [HandlerSpec]: the contract of the spec's section 4.2 as a step
      relation [spec_step] on [phase * world], with the spec's own
      classification of request bodies ([spec_parse]).

    ** What the theorems show

    - Functional behaviour of [main] on every row of the spec's response
      table (C1, C3-C7), with the clock readings each path consumes and
      the service state it leaves; the status and mimetype of every
      response (C11); at most one call to the service (C12).
    - The metric inequality [0 <= api_call_duration_ms <=
      function_code_duration_ms] for every 200 answer under a monotonic
      clock (C2), and the rounding of the reported numbers (C16).
    - The exact set of exceptions that escape [main] with a ready
      synthesizer (C8, an equivalence), which contradicts the spec's
      claim that every failure becomes an HTTP response: among them the
      spec's claim that every failure becomes an HTTP response: the
      [TypeError] of [in] on a truthy scalar body (C9) and the
      [AttributeError] of [.get] on a list or string containing ['text']
      (C10), and an exception of the call that is not an [Exception].
    - Initialisation: the synthesizer's voice and discarding audio sink
      (C13), [None] and one printed line after a failure (C14), and,
      since the audio output of line 17 does not depend on the
      environment, no environment makes the module ready when that
      constructor raises (C17), which the real SDK does for
      [use_default_speaker=False, filename=None].
    - Refinement (C15): on the requests the spec foresees, [main] ends
      exactly where the spec's machine finishes; the machine is
      deterministic and finishes in at most four steps.

    ** Bounds and fuel

    - [mro] uses four steps of fuel: the deepest class modelled
      ([UnicodeDecodeError]) has four ancestors, and [mro_complete] checks
      that every class reaches [BaseException].
    - [float_repr] looks for at most four fractional digits and fifteen
      significant digits, where [repr] is the exact decimal; the handler's
      floats have two fractional digits, so the bound is met for
      durations below 10^13 ms.

    ** Modelling choices and what is not modelled

    - Clock readings are exact rationals ([Q]); the world carries the
      clock [nat -> Q] and the index of the next reading, and the only
      hypothesis is monotonicity.  Floating-point rounding of the
      subtraction and of the product by 1000 is not modelled; [round] is
      modelled exactly on the rational value.
    - The Speech service, the SDK constructors and the JSON decoder are
      type classes: every theorem holds for every instance.  [Scripted]
      gives a service answering from a queue, an SDK whose
      [AudioOutputConfig] performs the real SDK's sink check, and a
      decoder by table.  A concrete
      [json.loads] is not modelled yet; the witnesses decode by table.
    - The Azure host is not modelled: the handler's result is one
      invocation's response or escaping exception; concurrent
      invocations and the host's answer to an escaping exception are out
      of scope.  The audio is discarded by the
      code and appears only as a field of the synthesis result.

    ** Plan for the next steps

    - A [json.loads] parser on byte strings, as an instance of
      [JsonCodec], with the round trip [json_loads (dumps o) = inr o] on
      the fragment and the spec's testable property that the 200 body
      decodes to an object holding both metrics.
    - Properties of [escape_string] and [float_repr] (injectivity, the
      decimal value of [decimal_string]).
    - Concurrent invocations sharing the read-only synthesizer, as
      interleavings of handler steps. *)

From Stdlib Require Import List String.
Import ListNotations.

Declare Scope py_scope.
Delimit Scope py_scope with py.

(** ** The statement monad

    A Python statement sequence, run in a world [W], either completes
    normally with a value, executes [return r], or raises an exception of
    type [E].  [PyM W E R A] is the state-passing function that runs it. *)

Inductive outcome (E R A : Type) : Type :=
| Normal (a : A)
| Return (r : R)
| Raise (e : E).
Arguments Normal {E R A} a.
Arguments Return {E R A} r.
Arguments Raise {E R A} e.

Definition PyM (W E R A : Type) : Type := W -> W * outcome E R A.

Section Monad.
Context {W E R : Type}.

Definition ret {A} (a : A) : PyM W E R A := fun w => (w, Normal a).

Definition bind {A B} (c : PyM W E R A) (k : A -> PyM W E R B) : PyM W E R B :=
  fun w =>
    match c w with
    | (w', Normal a) => k a w'
    | (w', Return r) => (w', Return r)
    | (w', Raise e) => (w', Raise e)
    end.

(** [return r] inside a function body. *)
Definition return_ {A} (r : R) : PyM W E R A := fun w => (w, Return r).

(** [raise e]. *)
Definition raise {A} (e : E) : PyM W E R A := fun w => (w, Raise e).

(** Lift a result that may be an exception ([inl]) into the monad. *)
Definition lift_exn {A} (x : E + A) : PyM W E R A :=
  match x with inl e => raise e | inr a => ret a end.

(** [try: body except C: handler], where [catches e] decides whether the
    [except] clause matches [e]; [return] and normal completion pass
    through untouched. *)
Definition try_except {A} (body : PyM W E R A) (catches : E -> bool)
    (handler : E -> PyM W E R A) : PyM W E R A :=
  fun w =>
    match body w with
    | (w', Raise e) => if catches e then handler e w' else (w', Raise e)
    | res => res
    end.

(** Calling a function whose body is [body]: the caller receives the
    returned value or the exception that escapes the body.  The body of
    [main] ends in a [return] on every path, so its normal completion is
    uninhabited ([Empty_set]). *)
Definition end_call (x : W * outcome E R Empty_set) : W * (R + E) :=
  match x with
  | (w', Normal a) => match a with end
  | (w', Return r) => (w', inl r)
  | (w', Raise e) => (w', inr e)
  end.

Definition call (body : PyM W E R Empty_set) (w : W) : W * (R + E) :=
  end_call (body w).

Lemma bind_ret_l {A B} (a : A) (k : A -> PyM W E R B) w :
  bind (ret a) k w = k a w.
Proof. reflexivity. Qed.

Lemma bind_ret_r {A} (c : PyM W E R A) w : bind c ret w = c w.
Proof. unfold bind, ret. destruct (c w) as [w' []]; reflexivity. Qed.

Lemma bind_assoc {A B C} (c : PyM W E R A) (f : A -> PyM W E R B)
    (g : B -> PyM W E R C) w :
  bind (bind c f) g w = bind c (fun a => bind (f a) g) w.
Proof. unfold bind. destruct (c w) as [w' []]; reflexivity. Qed.

Lemma bind_return {A B} (r : R) (k : A -> PyM W E R B) w :
  bind (return_ r) k w = (w, Return r).
Proof. reflexivity. Qed.

Lemma bind_raise {A B} (e : E) (k : A -> PyM W E R B) w :
  bind (raise e) k w = (w, Raise e).
Proof. reflexivity. Qed.

(** The outcome of a [bind] when the first statement raised. *)
Lemma bind_raised {A B} (c : PyM W E R A) (k : A -> PyM W E R B) w w' e :
  c w = (w', Raise e) -> bind c k w = (w', Raise e).
Proof. unfold bind. intros ->. reflexivity. Qed.

Lemma bind_returned {A B} (c : PyM W E R A) (k : A -> PyM W E R B) w w' r :
  c w = (w', Return r) -> bind c k w = (w', Return r).
Proof. unfold bind. intros ->. reflexivity. Qed.

Lemma bind_normal {A B} (c : PyM W E R A) (k : A -> PyM W E R B) w w' a :
  c w = (w', Normal a) -> bind c k w = k a w'.
Proof. unfold bind. intros ->. reflexivity. Qed.

Lemma try_except_raised {A} (body : PyM W E R A) catches handler w w' e :
  body w = (w', Raise e) ->
  try_except body catches handler w =
    if catches e then handler e w' else (w', Raise e).
Proof. unfold try_except. intros ->. reflexivity. Qed.

Lemma try_except_not_raised {A} (body : PyM W E R A) catches handler w :
  (forall w' e, body w <> (w', Raise e)) ->
  try_except body catches handler w = body w.
Proof.
  unfold try_except. intros H. destruct (body w) as [w' [| |e]] eqn:Hb;
    [reflexivity | reflexivity | exfalso; exact (H w' e eq_refl)].
Qed.
End Monad.

(** [let! x := c1 in c2] runs the statement [c1], binds its value to [x]
    and continues with [c2]. *)
Notation "'let!' x ':=' c1 'in' c2" := (bind c1 (fun x => c2))
  (at level 10, x name, c1 at level 100, c2 at level 200) : py_scope.

Create HintDb py.
Create Rewrite HintDb pyrun.
#[export] Hint Rewrite @bind_ret_l @bind_return @bind_raise : pyrun.

(** [py_run] unfolds one layer of the monad and simplifies the matches
    that the definitions of the model produce on concrete constructors. *)
Ltac py_run :=
  repeat (unfold bind, ret, return_, raise, lift_exn, try_except, call in *;
          cbn beta iota zeta in *; autorewrite with pyrun in *).

(** ** Generic lemmas on lists and options shared by the components *)

Lemma existsb_In_iff {A} (f : A -> bool) (l : list A) :
  existsb f l = true <-> exists x, In x l /\ f x = true.
Proof. apply existsb_exists. Qed.

Lemma option_map_Some_inv {A B} (f : A -> B) o b :
  option_map f o = Some b -> exists a, o = Some a /\ b = f a.
Proof. destruct o as [a|]; simpl; [intros H; inversion H; eauto | discriminate]. Qed.

Lemma string_app_inv_l (s s1 s2 : string) :
  (s ++ s1)%string = (s ++ s2)%string -> s1 = s2.
Proof. induction s as [|a s IH]; cbn; intros H; [exact H | inversion H; auto]. Qed.

(** ** Transition sequences

    The reflexive-transitive closure of a step relation, and the
    uniqueness of the final state a deterministic relation reaches. *)

Section Sequences.
Context {A : Type} (R : A -> A -> Prop).

Inductive star : A -> A -> Prop :=
| star_refl a : star a a
| star_step a b c : R a b -> star b c -> star a c.

Definition irred (a : A) : Prop := forall b, ~ R a b.

Lemma star_one a b : R a b -> star a b.
Proof. intros H. eapply star_step; [exact H | apply star_refl]. Qed.

Lemma star_trans a b c : star a b -> star b c -> star a c.
Proof. induction 1; intros; [assumption | eapply star_step; eauto]. Qed.

Lemma star_irred_unique :
  (forall a b c, R a b -> R a c -> b = c) ->
  forall a b c, star a b -> star a c -> irred b -> irred c -> b = c.
Proof.
  intros Hfun a b c Hab. revert c. induction Hab as [a|a a' b Hstep Hrest IH]; intros c Hac Hb Hc.
  - destruct Hac as [|a a'' c Hstep' _]; [reflexivity | exfalso; exact (Hb _ Hstep')].
  - destruct Hac as [|a a'' c Hstep' Hrest'].
    + exfalso. exact (Hc _ Hstep).
    + rewrite (Hfun _ _ _ Hstep Hstep') in IH. apply IH; assumption.
Qed.
End Sequences.
