(* ===== verification/PyRuntime.v ===== *)
(** * The fragment of Python's runtime that [function_app.py] relies on

    Exception classes with the part of the builtin hierarchy the handler's
    [except ValueError] and [except Exception] clauses depend on, exception
    values and their [str()], the objects [json.loads] returns, truthiness
    ([not x]), the [in] operator with a [str] on the left (dict, list and
    str containers; any other type raises [TypeError]) and [dict.get]
    (any other type raises [AttributeError]).  These are CPython's
    semantics, not code of the repository. *)

From Stdlib Require Import String Ascii List ZArith QArith Bool.
From stdpp Require Import base decidable.
From S2P Require Import Prelude.
Import ListNotations.
Local Open Scope string_scope.
Local Set Warnings "-register-all".

(** ** Exceptions *)

Inductive pyclass : Type :=
| BaseException | Exception
| ValueError | UnicodeError | UnicodeDecodeError | JSONDecodeError
| TypeError | AttributeError | RuntimeError | RecursionError | MemoryError
| KeyboardInterrupt | SystemExit.

#[export] Instance pyclass_eq_dec : EqDecision pyclass.
Proof. solve_decision. Defined.

(** The direct base class ([__base__]); [json.JSONDecodeError] derives
    from [ValueError], [UnicodeDecodeError] from [UnicodeError]. *)
Definition parent (c : pyclass) : option pyclass :=
  match c with
  | BaseException => None
  | Exception | KeyboardInterrupt | SystemExit => Some BaseException
  | ValueError | TypeError | AttributeError | RuntimeError | MemoryError =>
      Some Exception
  | UnicodeError | JSONDecodeError => Some ValueError
  | UnicodeDecodeError => Some UnicodeError
  | RecursionError => Some RuntimeError
  end.

Fixpoint mro_fuel (n : nat) (c : pyclass) : list pyclass :=
  c :: match n, parent c with
       | S n', Some p => mro_fuel n' p
       | _, _ => []
       end.

(** The method resolution order ([__mro__]): the hierarchy is at most
    five classes deep, so four steps of fuel reach [BaseException]. *)
Definition mro (c : pyclass) : list pyclass := mro_fuel 4 c.

Definition issubclass (c d : pyclass) : bool :=
  existsb (fun c' => bool_decide (c' = d)) (mro c).

Record exn : Type := mk_exn { exc_class : pyclass; exc_msg : string }.

(** [isinstance(e, C)], which is what [except C] tests. *)
Definition isinstance (e : exn) (c : pyclass) : bool := issubclass (exc_class e) c.
Arguments isinstance : simpl never.

(** [str(e)] of an exception raised with one message argument. *)
Definition exn_str (e : exn) : string := exc_msg e.

(** ** Objects produced by [json.loads] *)

(** A Python float: finite (kept as an exact rational), infinite, or NaN
    ([json.loads] accepts [NaN], [Infinity] and [-Infinity]). *)
Inductive pyfloat : Type :=
| FFin (q : Q)
| FInf (neg : bool)
| FNaN.

Inductive pyobj : Type :=
| PNone
| PBool (b : bool)
| PInt (z : Z)
| PFloat (f : pyfloat)
| PStr (s : string)
| PList (xs : list pyobj)
| PDict (kvs : list (string * pyobj)).

(** [type(o).__name__], used in the messages of [TypeError] and
    [AttributeError]. *)
Definition type_name (o : pyobj) : string :=
  match o with
  | PNone => "NoneType" | PBool _ => "bool" | PInt _ => "int"
  | PFloat _ => "float" | PStr _ => "str" | PList _ => "list"
  | PDict _ => "dict"
  end.

(** [bool(o)]: [None], [False], zero, the empty string and empty
    containers are false; NaN and the infinities are true. *)
Definition truthy (o : pyobj) : bool :=
  match o with
  | PNone => false
  | PBool b => b
  | PInt z => negb (Z.eqb z 0)
  | PFloat (FFin q) => negb (Qeq_bool q 0)
  | PFloat _ => true
  | PStr s => negb (String.eqb s "")
  | PList xs => match xs with [] => false | _ => true end
  | PDict kvs => match kvs with [] => false | _ => true end
  end.

(** A dict maps each key once (an insertion-ordered association list);
    lookup returns the binding of the key. *)
Definition dict_lookup (k : string) (kvs : list (string * pyobj)) : option pyobj :=
  option_map snd (find (fun kv => String.eqb (fst kv) k) kvs).

(** [k in d] on a dict. *)
Definition dict_contains (k : string) (kvs : list (string * pyobj)) : bool :=
  match dict_lookup k kvs with Some _ => true | None => false end.

(** Substring test of [needle in hay] on two [str]. *)
Fixpoint str_contains (needle hay : string) : bool :=
  String.prefix needle hay ||
  match hay with
  | EmptyString => false
  | String _ rest => str_contains needle rest
  end.

(** [needle in o] for a [str] needle: key membership for a dict, element
    equality for a list (a [str] equals only an equal [str]), substring for
    a [str]; the other types are not iterable and raise [TypeError]. *)
Definition py_in (needle : string) (o : pyobj) : exn + bool :=
  match o with
  | PDict kvs => inr (dict_contains needle kvs)
  | PList xs =>
      inr (existsb (fun x => match x with PStr s => String.eqb s needle | _ => false end) xs)
  | PStr s => inr (str_contains needle s)
  | _ => inl (mk_exn TypeError
                ("argument of type '" ++ type_name o ++ "' is not iterable"))
  end.

(** The types with [__contains__] among those [json.loads] returns. *)
Definition iterable (o : pyobj) : bool :=
  match o with PStr _ | PList _ | PDict _ => true | _ => false end.

(** [o.get(k)]: only a dict has the method; a missing key gives [None]. *)
Definition py_get (o : pyobj) (k : string) : exn + pyobj :=
  match o with
  | PDict kvs => inr (match dict_lookup k kvs with Some v => v | None => PNone end)
  | _ => inl (mk_exn AttributeError
                ("'" ++ type_name o ++ "' object has no attribute 'get'"))
  end.

(** [try: body except C: handler] in the statement monad. *)
Definition py_try {W R A} (body : PyM W exn R A) (c : pyclass)
    (handler : exn -> PyM W exn R A) : PyM W exn R A :=
  try_except body (fun e => isinstance e c) handler.

(** ** Lemmas *)

Lemma mro_complete c : List.last (mro c) c = BaseException.
Proof. destruct c; reflexivity. Qed.

Lemma issubclass_refl c : issubclass c c = true.
Proof. destruct c; reflexivity. Qed.

(** Every exception class except the three that derive directly from
    [BaseException] is caught by [except Exception]. *)
Lemma issubclass_Exception c :
  issubclass c Exception = true <->
  c <> BaseException /\ c <> KeyboardInterrupt /\ c <> SystemExit.
Proof.
  destruct c; cbn; split; intros H;
    try (repeat split; discriminate); try reflexivity;
    try discriminate; try (destruct H as [H _]; congruence);
    try (destruct H as [_ [H _]]; congruence); try (destruct H as [_ [_ H]]; congruence).
Qed.

Lemma issubclass_ValueError c :
  issubclass c ValueError = true <->
  c = ValueError \/ c = UnicodeError \/ c = UnicodeDecodeError \/ c = JSONDecodeError.
Proof.
  destruct c; cbn; split; intros H; try reflexivity; try discriminate;
    try tauto; repeat (destruct H as [H|H]; try discriminate).
Qed.

Lemma isinstance_ValueError_Exception e :
  isinstance e ValueError = true -> isinstance e Exception = true.
Proof. unfold isinstance. destruct (exc_class e); vm_compute; congruence. Qed.

Lemma truthy_false_iff o :
  truthy o = false <->
  o = PNone \/ o = PBool false \/ (exists z, o = PInt z /\ z = 0%Z) \/
  (exists q, o = PFloat (FFin q) /\ Qeq_bool q 0 = true) \/
  o = PStr "" \/ o = PList [] \/ o = PDict [].
Proof.
  split.
  - destruct o as [|[]|z|[q| |]|s|[|x xs]|[|kv kvs]]; cbn; intros H;
      try discriminate; eauto 10.
    + right; right; left. exists z. split; [reflexivity|]. apply Z.eqb_eq.
      destruct (Z.eqb z 0); [reflexivity | discriminate].
    + right; right; right; left. exists q. split; [reflexivity|].
      destruct (Qeq_bool q 0); [reflexivity | discriminate].
    + destruct (String.eqb_spec s ""); [subst; eauto 10 | discriminate].
  - intros [->|[->|[[z [-> ->]]|[[q [-> Hq]]|[->|[->| ->]]]]]]; cbn; try reflexivity.
    rewrite Hq. reflexivity.
Qed.

Lemma py_in_dict k kvs : py_in k (PDict kvs) = inr (dict_contains k kvs).
Proof. reflexivity. Qed.

(** [in] raises exactly on the non-iterable types. *)
Lemma py_in_raises k o e :
  py_in k o = inl e ->
  exc_class e = TypeError /\
  (o = PNone \/ (exists b, o = PBool b) \/ (exists z, o = PInt z) \/ exists f, o = PFloat f).
Proof.
  destruct o; cbn; intros H; try discriminate; inversion H; subst; cbn;
    split; eauto 10.
Qed.

Lemma py_get_dict k kvs v :
  dict_lookup k kvs = Some v -> py_get (PDict kvs) k = inr v.
Proof. cbn. intros ->. reflexivity. Qed.

Lemma prefix_refl s : String.prefix s s = true.
Proof.
  induction s as [|a s IH]; cbn; [reflexivity|].
  destruct (ascii_dec a a); [exact IH | congruence].
Qed.

(** A prefix of the container is found by [in]. *)
Lemma str_contains_prefix needle hay :
  String.prefix needle hay = true -> str_contains needle hay = true.
Proof. destruct hay; cbn [str_contains]; intros ->; reflexivity. Qed.

Lemma str_contains_refl s : str_contains s s = true.
Proof. apply str_contains_prefix, prefix_refl. Qed.

Lemma py_get_raises o k e : py_get o k = inl e -> exc_class e = AttributeError.
Proof. destruct o; cbn; intros H; inversion H; reflexivity. Qed.

Lemma str_contains_nonempty needle hay :
  needle <> EmptyString -> str_contains needle hay = true -> hay <> EmptyString.
Proof. intros Hn. destruct hay, needle; cbn; congruence. Qed.

(** A non-empty needle is only found in a truthy container. *)
Lemma py_in_true_truthy k o :
  k <> EmptyString -> py_in k o = inr true -> truthy o = true.
Proof.
  intros Hk. destruct o as [| | | |s|xs|kvs]; cbn; intros H; try discriminate; injection H as Hb.
  - destruct s; [|reflexivity]. exfalso. exact (str_contains_nonempty _ _ Hk Hb eq_refl).
  - destruct xs; [discriminate | reflexivity].
  - destruct kvs; [discriminate | reflexivity].
Qed.

Lemma py_in_not_iterable k o :
  iterable o = false ->
  py_in k o = inl (mk_exn TypeError ("argument of type '" ++ type_name o ++ "' is not iterable")).
Proof. destruct o; cbn; congruence. Qed.

Lemma py_get_not_dict o k :
  (forall kvs, o <> PDict kvs) ->
  py_get o k = inl (mk_exn AttributeError ("'" ++ type_name o ++ "' object has no attribute 'get'")).
Proof. destruct o as [| | | | | |kvs]; cbn; intros H; try reflexivity. exfalso; exact (H kvs eq_refl). Qed.
