(* ===== verification/Timing.v ===== *)
(** * Time measurement: [time.perf_counter] and [round(x, 2)]

    [perf_counter] is modelled as the next reading of a clock: the state
    [clock_state] carries all readings the process will observe ([clk])
    and the index of the next one ([tick]); a reading returns [clk tick]
    and advances [tick].  Python documents [perf_counter] as monotonic,
    which is the one hypothesis [clock_monotone] states.  Durations are
    [(t_end - t_start) * 1000] milliseconds, as in lines 57 and 64 of
    [function_app.py], and [py_round2] is Python's [round(x, 2)]: the
    nearest multiple of 0.01, ties to even. *)

From Stdlib Require Import ZArith QArith Qround Lqa Lia.
From S2P Require Import Prelude.
Local Open Scope Q_scope.

Record clock_state : Type := mk_clock { clk : nat -> Q; tick : nat }.

Definition clock_monotone (c : clock_state) : Prop :=
  forall i j, (i <= j)%nat -> clk c i <= clk c j.

(** One call of [time.perf_counter()]. *)
Definition perf_counter_read (c : clock_state) : Q * clock_state :=
  (clk c (tick c), mk_clock (clk c) (S (tick c))).

(** [(t_end - t_start) * 1000]. *)
Definition duration_ms (t_start t_end : Q) : Q := (t_end - t_start) * 1000.

(** Round half to even at the unit: the integer nearest to [y], the even
    one when [y] is exactly halfway. *)
Definition round_half_even (y : Q) : Z :=
  let f := Qfloor y in
  match Qcompare (y - inject_Z f) (1#2) with
  | Lt => f
  | Gt => (f + 1)%Z
  | Eq => if Z.even f then f else (f + 1)%Z
  end.

(** [round(x, 2)] as a number of hundredths, and as the value itself. *)
Definition round2_cents (x : Q) : Z := round_half_even (x * 100).
Definition py_round2 (x : Q) : Q := Qmake (round2_cents x) 100.

(** ** Lemmas *)

(** Move [inject_Z] of sums of integers into [Q] arithmetic for [lra]. *)
Ltac qz_norm := rewrite ?inject_Z_plus in *; change (inject_Z 1) with 1 in *.

Lemma perf_counter_read_monotone c t c' :
  perf_counter_read c = (t, c') -> clk c' = clk c /\ tick c' = S (tick c) /\ t = clk c (tick c).
Proof. unfold perf_counter_read. intros H. inversion H. auto. Qed.

(** The result is the floor or the floor plus one. *)
Lemma round_half_even_cases y :
  (round_half_even y = Qfloor y /\ y - inject_Z (Qfloor y) <= (1#2)) \/
  (round_half_even y = (Qfloor y + 1)%Z /\ (1#2) <= y - inject_Z (Qfloor y)).
Proof.
  unfold round_half_even.
  destruct (Qcompare_spec (y - inject_Z (Qfloor y)) (1#2)) as [H|H|H].
  - destruct (Z.even (Qfloor y)); [left | right]; split; auto; lra.
  - left. split; [reflexivity | lra].
  - right. split; [reflexivity | lra].
Qed.

Lemma round_half_even_close y :
  inject_Z (round_half_even y) - (1#2) <= y <= inject_Z (round_half_even y) + (1#2).
Proof.
  pose proof (Qfloor_le y). pose proof (Qlt_floor y).
  destruct (round_half_even_cases y) as [[-> Hr]|[-> Hr]]; qz_norm; split; lra.
Qed.

Lemma round_half_even_mono y1 y2 :
  y1 <= y2 -> (round_half_even y1 <= round_half_even y2)%Z.
Proof.
  intros H. pose proof (Qfloor_resp_le _ _ H) as Hf.
  pose proof (Qfloor_le y1). pose proof (Qlt_floor y1).
  pose proof (Qfloor_le y2). pose proof (Qlt_floor y2).
  qz_norm.
  destruct (Z.eq_dec (Qfloor y1) (Qfloor y2)) as [E|NE].
  - unfold round_half_even. rewrite <- E.
    destruct (Qcompare_spec (y1 - inject_Z (Qfloor y1)) (1#2)),
      (Qcompare_spec (y2 - inject_Z (Qfloor y1)) (1#2));
      try destruct (Z.even (Qfloor y1)); try lia; exfalso; lra.
  - destruct (round_half_even_cases y1) as [[-> _]|[-> _]],
      (round_half_even_cases y2) as [[-> _]|[-> _]]; lia.
Qed.

Lemma round_half_even_nonneg y : 0 <= y -> (0 <= round_half_even y)%Z.
Proof.
  intros H. change 0%Z with (round_half_even 0).
  apply round_half_even_mono. exact H.
Qed.

(** An integer is its own rounding. *)
Lemma round_half_even_Z z : round_half_even (inject_Z z) = z.
Proof.
  unfold round_half_even. rewrite Qfloor_Z.
  destruct (Qcompare_spec (inject_Z z - inject_Z z) (1#2)); [exfalso; lra | reflexivity | exfalso; lra].
Qed.

Lemma round2_cents_mono x y : x <= y -> (round2_cents x <= round2_cents y)%Z.
Proof.
  intros H. apply round_half_even_mono. apply Qmult_le_compat_r; [exact H | lra].
Qed.

Lemma round2_cents_nonneg x : 0 <= x -> (0 <= round2_cents x)%Z.
Proof. intros H. apply round_half_even_nonneg. lra. Qed.

Lemma duration_ms_nonneg a b : a <= b -> 0 <= duration_ms a b.
Proof. unfold duration_ms. intros H. lra. Qed.

(** A duration nested in another is not longer. *)
Lemma duration_ms_nested a b c d :
  a <= b -> c <= d -> duration_ms b c <= duration_ms a d.
Proof. unfold duration_ms. intros H1 H2. lra. Qed.

#[export] Hint Resolve duration_ms_nonneg duration_ms_nested round2_cents_mono
  round2_cents_nonneg : py.



Lemma Qmake_100 k : Qmake k 100 == inject_Z k * (1#100).
Proof. unfold Qeq. cbn. lia. Qed.

(** [round(x, 2)] is within half a hundredth of [x]. *)
Lemma py_round2_close x : py_round2 x - (1#200) <= x <= py_round2 x + (1#200).
Proof.
  unfold py_round2, round2_cents. rewrite Qmake_100.
  destruct (round_half_even_close (x * 100)) as [H1 H2].
  generalize dependent (inject_Z (round_half_even (x * 100))). intros q H1 H2. split; lra.
Qed.
