(* ===== verification/Speech.v ===== *)
(** * The Azure Speech SDK as [function_app.py] uses it

    The SDK ([azure.cognitiveservices.speech]) is not code of the
    repository: it is the interface [SpeechSdk] below, a type class whose
    methods are the calls the module makes.  Each constructor may raise
    (an [option exn] saying which exception, if any); the synthesis call
    [speak_text_async(text).get()] blocks until the service answers and
    either raises or returns a [SpeechSynthesisResult].  The service keeps
    a state of its own ([svc_state]) that each call may change.  The
    records keep the attributes the module sets, so that theorems can say
    which voice and which audio sink the synthesizer was built with. *)

From Stdlib Require Import String List.
From stdpp Require Import base decidable.
From S2P Require Import Prelude PyRuntime.
Local Open Scope string_scope.

(** [speechsdk.ResultReason], the members a synthesis can report. *)
Inductive ResultReason : Type :=
| NoMatch | Canceled
| RecognizingSpeech | RecognizedSpeech
| SynthesizingAudio | SynthesizingAudioCompleted | SynthesizingAudioStarted
| VoicesListRetrieved.

#[export] Instance ResultReason_eq_dec : EqDecision ResultReason.
Proof. solve_decision. Defined.

Definition reason_name (r : ResultReason) : string :=
  match r with
  | NoMatch => "NoMatch" | Canceled => "Canceled"
  | RecognizingSpeech => "RecognizingSpeech" | RecognizedSpeech => "RecognizedSpeech"
  | SynthesizingAudio => "SynthesizingAudio"
  | SynthesizingAudioCompleted => "SynthesizingAudioCompleted"
  | SynthesizingAudioStarted => "SynthesizingAudioStarted"
  | VoicesListRetrieved => "VoicesListRetrieved"
  end.

(** [str(reason)] (and an f-string [{reason}]) of an [Enum] member is
    ["ResultReason." ++ name]. *)
Definition reason_str (r : ResultReason) : string := "ResultReason." ++ reason_name r.

(** [speechsdk.SpeechConfig]: the constructor arguments and the voice set
    afterwards through [speech_synthesis_voice_name]. *)
Record SpeechConfig : Type := mk_speech_config {
  subscription : option string;
  region : option string;
  speech_synthesis_voice_name : option string
}.

(** [speechsdk.audio.AudioOutputConfig]. *)
Record AudioOutputConfig : Type := mk_audio_config {
  use_default_speaker : bool;
  filename : option string
}.

(** [speechsdk.SpeechSynthesizer], by the configurations it was built from. *)
Record SpeechSynthesizer : Type := mk_synthesizer {
  synth_speech_config : SpeechConfig;
  synth_audio_config : AudioOutputConfig
}.

(** [speechsdk.SpeechSynthesisResult]: the reason and the audio bytes. *)
Record SpeechSynthesisResult : Type := mk_result {
  reason : ResultReason;
  audio_data : list Byte.byte
}.

(** What [speak_text_async(text).get()] does: raise or return a result. *)
Inductive sdk_reply : Type :=
| SdkRaised (e : exn)
| SdkReturned (res : SpeechSynthesisResult).

Class SpeechSdk : Type := {
  svc_state : Type;
  (** [SpeechConfig(subscription=k, region=r)] raises [Some e]. *)
  speech_config_error : option string -> option string -> option exn;
  (** [AudioOutputConfig(use_default_speaker=b, filename=f)] raises. *)
  audio_config_error : bool -> option string -> option exn;
  (** [SpeechSynthesizer(speech_config=c, audio_config=a)] raises. *)
  synthesizer_error : SpeechConfig -> AudioOutputConfig -> option exn;
  (** [synth.speak_text_async(text).get()] *)
  speak_text : SpeechSynthesizer -> pyobj -> svc_state -> svc_state * sdk_reply
}.

Section Constructors.
Context `{SpeechSdk}.

Definition new_SpeechConfig (k r : option string) : exn + SpeechConfig :=
  match speech_config_error k r with
  | Some e => inl e
  | None => inr (mk_speech_config k r None)
  end.

Definition new_AudioOutputConfig (b : bool) (f : option string) : exn + AudioOutputConfig :=
  match audio_config_error b f with
  | Some e => inl e
  | None => inr (mk_audio_config b f)
  end.

Definition new_SpeechSynthesizer (c : SpeechConfig) (a : AudioOutputConfig)
    : exn + SpeechSynthesizer :=
  match synthesizer_error c a with
  | Some e => inl e
  | None => inr (mk_synthesizer c a)
  end.
End Constructors.

Lemma reason_name_inj r1 r2 : reason_name r1 = reason_name r2 -> r1 = r2.
Proof. destruct r1, r2; cbn; intros H; try reflexivity; discriminate. Qed.

Lemma reason_str_inj r1 r2 : reason_str r1 = reason_str r2 -> r1 = r2.
Proof. unfold reason_str. intros H. apply reason_name_inj, (string_app_inv_l _ _ _ H). Qed.
