(* ===== verification/Http.v ===== *)
(** * [azure.functions] requests and responses, and the [json] module

    [func.HttpRequest] is kept by its method, URL and raw body (a byte
    string); [func.HttpResponse] by its body, status code and mimetype,
    whose default is ["text/plain"].  [req.get_json()] is
    [json.loads(body.decode('utf-8'))] in [azure.functions]; the decoder
    and [json.dumps] are the methods of the class [JsonCodec], so that the
    handler's theorems hold for every decoder; [JsonDumps] gives the
    encoder used by the concrete instances. *)

From Stdlib Require Import String ZArith.
From S2P Require Import Prelude PyRuntime.
Local Open Scope string_scope.

Record HttpRequest : Type := mk_request {
  req_method : string;
  req_url : string;
  req_body : string
}.

Record HttpResponse : Type := mk_response {
  resp_body : string;
  resp_status : Z;
  resp_mimetype : string
}.

(** [func.HttpResponse(body, status_code=s)] *)
Definition http_response (body : string) (status : Z) : HttpResponse :=
  mk_response body status "text/plain".

(** [func.HttpResponse(body=b, status_code=s, mimetype=m)] *)
Definition http_response_mime (body : string) (status : Z) (mime : string) : HttpResponse :=
  mk_response body status mime.

Class JsonCodec : Type := {
  (** [json.loads(body.decode('utf-8'))]: a decoding error is raised as a
      [ValueError] subclass by a conforming decoder, but the class does
      not assume it (CPython also raises [RecursionError] on deep
      nesting). *)
  json_loads : string -> exn + pyobj;
  (** [json.dumps(o)] with the default separators. *)
  json_dumps : pyobj -> string
}.

(** [req.get_json()] *)
Definition get_json `{JsonCodec} (req : HttpRequest) : exn + pyobj :=
  json_loads (req_body req).
