(* ===== verification/JsonDumps.v ===== *)
(** * [json.dumps] on the objects the handler serialises

    CPython's [json.dumps(o)] with its defaults ([ensure_ascii=True],
    [allow_nan=True], separators [", "] and [": "]).  [dumps] is partial:
    it returns [None] outside the fragment modelled here, namely strings
    with bytes outside ASCII (which CPython escapes as [\uXXXX] code
    points after UTF-8 decoding) and finite floats whose [repr] is not a
    plain decimal with at most four fractional digits and fifteen
    significant digits (there, [repr] is the shortest string that reads
    back as the same double, which needs a model of binary floats).  On
    the fragment, [repr] of a float is its exact decimal expansion with
    at least one fractional digit ([120.0], [0.05], [12.34]). *)

From Stdlib Require Import String Ascii List ZArith QArith DecimalString.
From S2P Require Import Prelude PyRuntime.
Import ListNotations.
Local Open Scope string_scope.

Definition dq : string := String "034"%char EmptyString.
Definition bslash : string := String "092"%char EmptyString.

(** [str(z)] of an [int]. *)
Definition string_of_Z (z : Z) : string := NilEmpty.string_of_int (Z.to_int z).

Definition hex_digit (n : nat) : ascii :=
  ascii_of_nat (if Nat.ltb n 10 then 48 + n else 87 + n).

(** One character of a string literal: the escapes of [json.encoder],
    [\u00XX] (lower-case hex) for the other control characters. *)
Definition escape_char (c : ascii) : option string :=
  let n := nat_of_ascii c in
  if Nat.eqb n 34 then Some (bslash ++ dq)
  else if Nat.eqb n 92 then Some (bslash ++ bslash)
  else if Nat.eqb n 10 then Some (bslash ++ "n")
  else if Nat.eqb n 13 then Some (bslash ++ "r")
  else if Nat.eqb n 9 then Some (bslash ++ "t")
  else if Nat.eqb n 8 then Some (bslash ++ "b")
  else if Nat.eqb n 12 then Some (bslash ++ "f")
  else if Nat.ltb n 32 then
    Some (bslash ++ "u00" ++ String (hex_digit (n / 16)) (String (hex_digit (n mod 16)) EmptyString))
  else if Nat.ltb n 128 then Some (String c EmptyString)
  else None.

Fixpoint escape_string (s : string) : option string :=
  match s with
  | EmptyString => Some EmptyString
  | String c rest =>
      match escape_char c, escape_string rest with
      | Some e, Some r => Some (e ++ r)
      | _, _ => None
      end
  end.

Definition quote_str (s : string) : option string :=
  option_map (fun e => dq ++ e ++ dq) (escape_string s).

(** The least [k <= fuel] such that [q * 10^k] is an integer, with that
    integer. *)
Fixpoint decimal_scale (fuel k : nat) (q : Q) : option (Z * nat) :=
  let r := Qred q in
  if Pos.eqb (Qden r) 1 then Some (Qnum r, k)
  else match fuel with
       | O => None
       | S f => decimal_scale f (S k) (q * 10)
       end.

Fixpoint pad_left (n : nat) (s : string) : string :=
  match n with
  | O => s
  | S n' => if Nat.leb (S n') (String.length s) then s else pad_left n' ("0" ++ s)
  end.

(** [n / 10^k] written with [k] fractional digits ([k] least, so the last
    one is not 0), or [".0"] when [k = 0]. *)
Definition decimal_string (n : Z) (k : nat) : string :=
  let sign := if Z.ltb n 0 then "-" else "" in
  let a := Z.abs n in
  let p := (10 ^ Z.of_nat k)%Z in
  sign ++ string_of_Z (a / p) ++ "." ++
  (match k with O => "0" | _ => pad_left k (string_of_Z (a mod p)) end).

(** [repr(x)] of a float. *)
Definition float_repr (f : pyfloat) : option string :=
  match f with
  | FNaN => Some "NaN"
  | FInf false => Some "Infinity"
  | FInf true => Some "-Infinity"
  | FFin q =>
      match decimal_scale 4 0 q with
      | Some (n, k) => if Z.ltb (Z.abs n) (10 ^ 15) then Some (decimal_string n k) else None
      | None => None
      end
  end.

Fixpoint join (sep : string) (xs : list string) : string :=
  match xs with
  | [] => ""
  | [x] => x
  | x :: rest => x ++ sep ++ join sep rest
  end.

Fixpoint all_some {A} (xs : list (option A)) : option (list A) :=
  match xs with
  | [] => Some []
  | Some x :: rest => option_map (cons x) (all_some rest)
  | None :: _ => None
  end.

Fixpoint dumps (o : pyobj) : option string :=
  match o with
  | PNone => Some "null"
  | PBool true => Some "true"
  | PBool false => Some "false"
  | PInt z => Some (string_of_Z z)
  | PFloat f => float_repr f
  | PStr s => quote_str s
  | PList xs =>
      option_map (fun ss => "[" ++ join ", " ss ++ "]") (all_some (map dumps xs))
  | PDict kvs =>
      option_map (fun ss => "{" ++ join ", " ss ++ "}")
        (all_some (map (fun kv => match quote_str (fst kv), dumps (snd kv) with
                                  | Some k, Some v => Some (k ++ ": " ++ v)
                                  | _, _ => None
                                  end) kvs))
  end.
