(* ===== verification/Scripted.v ===== *)
(** * Concrete instances of the interfaces, for the scenarios of the spec

    [scripted_sdk] is a Speech service whose state is the queue of replies
    it will give (the mocked client of the spec's scenarios); constructing
    a [SpeechConfig] without a key or a region raises [ValueError], the
    other constructors succeed.  [table_codec] decodes the request bodies
    of the scenarios through a table, answers any other body with
    [json.JSONDecodeError], and encodes with [JsonDumps.dumps].
    [sdk_with_sink_check] adds the SDK's refusal of an [AudioOutputConfig]
    with neither a default speaker nor a file.  They are
    [Definition]s: the files that use them declare them as local
    instances, so that the generic theorems stay generic. *)

From Stdlib Require Import String List ZArith QArith.
From S2P Require Import Prelude PyRuntime Speech Http JsonDumps.
Import ListNotations.
Local Open Scope string_scope.

Definition scripted_sdk : SpeechSdk := {|
  svc_state := list sdk_reply;
  speech_config_error k r :=
    match k, r with
    | Some _, Some _ => None
    | _, _ => Some (mk_exn ValueError "subscription key and region must be given")
    end;
  audio_config_error _ _ := None;
  synthesizer_error _ _ := None;
  speak_text _ _ st :=
    match st with
    | [] => ([], SdkReturned (mk_result Canceled []))
    | r :: rest => (rest, r)
    end
|}.

(** Request bodies of the scenarios. *)
Definition body_ola : string := "{" ++ dq ++ "text" ++ dq ++ ": " ++ dq ++ "Olá mundo" ++ dq ++ "}".
Definition body_empty_object : string := "{}".
Definition body_not_json : string := "not json".
Definition body_int : string := "5".
Definition body_list_text : string := "[" ++ dq ++ "text" ++ dq ++ "]".
Definition body_str_context : string := dq ++ "context" ++ dq.
Definition body_deep : string := "[[[[[[[[[[[[[[[[[[[[[[[[[[[[[[[[".

Definition decode_table : list (string * (exn + pyobj)) :=
  [(body_ola, inr (PDict [("text", PStr "Olá mundo")]));
   (body_empty_object, inr (PDict []));
   (body_int, inr (PInt 5));
   (body_list_text, inr (PList [PStr "text"]));
   (body_str_context, inr (PStr "context"));
   (body_deep, inl (mk_exn RecursionError "maximum recursion depth exceeded while decoding a JSON array from a unicode string"))].

Definition table_codec : JsonCodec := {|
  json_loads b :=
    match find (fun kv => String.eqb (fst kv) b) decode_table with
    | Some (_, r) => r
    | None => inl (mk_exn JSONDecodeError "Expecting value: line 1 column 1 (char 0)")
    end;
  json_dumps o := match dumps o with Some s => s | None => "" end
|}.

Definition request_with (body : string) : HttpRequest := mk_request "POST" "/api/main" body.

(** The check of [speechsdk.audio.AudioOutputConfig.__init__]: with no
    default speaker and no file, stream or device it raises
    [ValueError("default speaker needs to be explicitly activated")].
    Otherwise as [scripted_sdk]. *)
Definition default_speaker_error : exn :=
  mk_exn ValueError "default speaker needs to be explicitly activated".

Definition sdk_with_sink_check : SpeechSdk := {|
  svc_state := list sdk_reply;
  speech_config_error k r := @speech_config_error scripted_sdk k r;
  audio_config_error b f :=
    match b, f with
    | false, None => Some default_speaker_error
    | _, _ => None
    end;
  synthesizer_error _ _ := None;
  speak_text s t st := @speak_text scripted_sdk s t st
|}.
