(* ===== verification/Init.v ===== *)
(** * Module initialisation: lines 7-25 of [function_app.py]

    Importing the module reads [SPEECH_KEY] and [SPEECH_REGION] from
    [os.environ] and, inside one [try], builds the [SpeechConfig], sets the
    voice, builds an [AudioOutputConfig] that neither plays nor writes the
    audio, and builds the [SpeechSynthesizer].  [except Exception] turns any
    failure into [speech_synthesizer = None] and one line on standard
    output.  The world of this statement sequence is the list of lines
    printed; [init_module] returns the module's globals, or the exception
    that makes the import fail (one that is not an [Exception]). *)

From Stdlib Require Import String List.
From S2P Require Import Prelude PyRuntime Speech Scripted.
Import ListNotations.
Local Open Scope string_scope.
Local Open Scope py_scope.

(** [os.environ] as the list of its entries. *)
Definition environ : Type := list (string * string).

(** [os.environ.get(k)] *)
Definition environ_get (env : environ) (k : string) : option string :=
  option_map snd (find (fun kv => String.eqb (fst kv) k) env).

(** [print(s)]: one more line on standard output. *)
Definition py_print {R} (s : string) : PyM (list string) exn R unit :=
  fun out => ((out ++ [s])%list, Normal tt).

(** The globals the module defines. *)
Record app_module : Type := mk_module {
  SPEECH_KEY : option string;
  SPEECH_REGION : option string;
  speech_synthesizer : option SpeechSynthesizer
}.

Section Init.
Context `{SpeechSdk}.

Definition voice_name : string := "pt-BR-FranciscaNeural".

Definition init_error_message (e : exn) : string :=
  "Erro CRÍTICO ao inicializar o SpeechSynthesizer: " ++ exn_str e.

(** [speech_config.speech_synthesis_voice_name = v] *)
Definition set_voice_name (c : SpeechConfig) (v : string) : SpeechConfig :=
  mk_speech_config (subscription c) (region c) (Some v).

(** Lines 12-25: the [try] block and its [except Exception] clause. *)
Definition build_synthesizer (key reg : option string)
    : PyM (list string) exn Empty_set (option SpeechSynthesizer) :=
  py_try
    (let! speech_config := lift_exn (new_SpeechConfig key reg) in
     let speech_config := set_voice_name speech_config voice_name in
     let! audio_config := lift_exn (new_AudioOutputConfig false None) in
     let! synth := lift_exn (new_SpeechSynthesizer speech_config audio_config) in
     ret (Some synth))
    Exception
    (fun e => let! _ := py_print (init_error_message e) in ret None).

(** Lines 8-25, run on an empty standard output. *)
Definition init_module (env : environ) : list string * (exn + app_module) :=
  let key := environ_get env "SPEECH_KEY" in
  let reg := environ_get env "SPEECH_REGION" in
  match build_synthesizer key reg [] with
  | (out, Normal s) => (out, inr (mk_module key reg s))
  | (out, Raise e) => (out, inl e)
  | (out, Return r) => match r with end
  end.

(** The result of the three constructors, in the order the code calls
    them: the first exception raised, or the synthesizer. *)
Definition construction (key reg : option string) : exn + SpeechSynthesizer :=
  match new_SpeechConfig key reg with
  | inl e => inl e
  | inr c =>
      match new_AudioOutputConfig false None with
      | inl e => inl e
      | inr a => new_SpeechSynthesizer (set_voice_name c voice_name) a
      end
  end.

(** ** Lemmas *)

(** The [try] body is the sequence of constructors. *)
Lemma build_synthesizer_body key reg out :
  build_synthesizer key reg out =
    match construction key reg with
    | inr s => (out, Normal (Some s))
    | inl e => if isinstance e Exception
               then ((out ++ [init_error_message e])%list, Normal None)
               else (out, Raise e)
    end.
Proof.
  unfold build_synthesizer, construction, py_try, try_except.
  destruct (new_SpeechConfig key reg) as [e|c]; [reflexivity|].
  destruct (new_AudioOutputConfig false None) as [e|a]; [reflexivity|].
  cbn. destruct (new_SpeechSynthesizer _ a); reflexivity.
Qed.

Lemma construction_success key reg s :
  construction key reg = inr s ->
  synth_speech_config s = mk_speech_config key reg (Some voice_name) /\
  synth_audio_config s = mk_audio_config false None.
Proof.
  unfold construction, new_SpeechConfig, new_AudioOutputConfig, new_SpeechSynthesizer.
  destruct (speech_config_error key reg); [discriminate|].
  destruct (audio_config_error false None); [discriminate|].
  destruct (synthesizer_error _ _); [discriminate|].
  intros Hs. inversion Hs. split; reflexivity.
Qed.

(** C13: when the three constructors succeed, importing the module
    prints nothing and leaves a synthesizer built from the environment's
    key and region, with the voice [pt-BR-FranciscaNeural] and an audio
    output that uses no speaker and no file (the audio is discarded). *)
Theorem init_module_ready env :
  let key := environ_get env "SPEECH_KEY" in
  let reg := environ_get env "SPEECH_REGION" in
  speech_config_error key reg = None ->
  audio_config_error false None = None ->
  synthesizer_error (mk_speech_config key reg (Some voice_name)) (mk_audio_config false None) = None ->
  init_module env =
    ([], inr (mk_module key reg
               (Some (mk_synthesizer (mk_speech_config key reg (Some "pt-BR-FranciscaNeural"))
                                     (mk_audio_config false None))))).
Proof.
  intros key reg Hc Ha Hs. unfold init_module. fold key reg.
  rewrite build_synthesizer_body. unfold construction, new_SpeechConfig, new_AudioOutputConfig.
  rewrite Hc, Ha. cbn -[voice_name synthesizer_error]. unfold new_SpeechSynthesizer, set_voice_name.
  cbn [subscription region]. rewrite Hs. reflexivity.
Qed.

(** C14: when a constructor raises an [Exception] [e] (the first one
    raised, in the order of the source), importing the module does not
    fail: it prints one line with [str(e)] on standard output and leaves
    [speech_synthesizer = None], the state in which every request is
    refused. *)
Theorem init_module_failure env e :
  construction (environ_get env "SPEECH_KEY") (environ_get env "SPEECH_REGION") = inl e ->
  isinstance e Exception = true ->
  init_module env =
    (["Erro CRÍTICO ao inicializar o SpeechSynthesizer: " ++ exn_str e],
     inr (mk_module (environ_get env "SPEECH_KEY") (environ_get env "SPEECH_REGION") None)).
Proof.
  intros Hc He. unfold init_module. rewrite build_synthesizer_body, Hc, He. reflexivity.
Qed.
(** C17: the audio output of line 17 does not depend on the environment:
    when [AudioOutputConfig(use_default_speaker=False, filename=None)]
    raises an [Exception] (the SDK's check that a sink is given), no
    environment makes the module ready: the import either fails or leaves
    [speech_synthesizer = None], and every request is then refused. *)
Theorem init_module_never_ready env e m :
  audio_config_error false None = Some e -> isinstance e Exception = true ->
  snd (init_module env) = inr m -> speech_synthesizer m = None.
Proof.
  intros Ha He Hm. unfold init_module in Hm. rewrite build_synthesizer_body in Hm.
  unfold construction, new_AudioOutputConfig in Hm. rewrite Ha in Hm.
  destruct (new_SpeechConfig _ _) as [e'|c].
  - destruct (isinstance e' Exception); cbn in Hm; inversion Hm; reflexivity.
  - rewrite He in Hm. cbn in Hm. inversion Hm. reflexivity.
Qed.
End Init.

#[local] Existing Instance scripted_sdk.

Definition env_ok : environ := [("SPEECH_KEY", "0123abcd"); ("SPEECH_REGION", "brazilsouth")].

Lemma init_module_ready_witness :
  init_module env_ok =
    ([], inr (mk_module (Some "0123abcd") (Some "brazilsouth")
               (Some (mk_synthesizer (mk_speech_config (Some "0123abcd") (Some "brazilsouth")
                                                       (Some "pt-BR-FranciscaNeural"))
                                     (mk_audio_config false None))))).
Proof. apply (@init_module_ready scripted_sdk env_ok); reflexivity. Defined.

Definition missing_key_error : exn := mk_exn ValueError "subscription key and region must be given".

Lemma init_module_failure_witness :
  init_module [("SPEECH_REGION", "brazilsouth")] =
    (["Erro CRÍTICO ao inicializar o SpeechSynthesizer: " ++ exn_str missing_key_error],
     inr (mk_module None (Some "brazilsouth") None)).
Proof. apply (@init_module_failure scripted_sdk [("SPEECH_REGION", "brazilsouth")] missing_key_error); reflexivity. Defined.


Lemma init_module_never_ready_witness :
  snd (@init_module sdk_with_sink_check env_ok) =
    inr (mk_module (Some "0123abcd") (Some "brazilsouth") None) /\
  speech_synthesizer (mk_module (Some "0123abcd") (Some "brazilsouth") None) = None.
Proof.
  split; [reflexivity|].
  apply (@init_module_never_ready sdk_with_sink_check env_ok default_speaker_error); reflexivity.
Defined.
