(* ===== verification/Handler.v ===== *)
(** * The HTTP handler [main]: lines 28-81 of [function_app.py]

    The handler runs in the statement monad over a [world] made of the
    clock read by [time.perf_counter] and the state of the Speech service.
    Its body is split along the blocks of the source:
    - [check_ready] (lines 33-34): the readiness check on the global
      [speech_synthesizer];
    - [perf_counter] (lines 37, 51, 57, 64): one clock reading;
    - [read_text] (lines 39-48): the first [try], decoding the body and
      extracting ['text'], with [text_missing] the condition of line 42;
    - [synthesize] (lines 51-81): the clock reading before the call and
      the second [try] with the call, the result check, the metrics and
      the 200 response, and its [except Exception] clause;
    - [main_body] composes them in the order of the source, and [main]
      is the call of the function: the response it returns or the
      exception that escapes it. *)

From Stdlib Require Import String List ZArith QArith Lia.
From stdpp Require Import base decidable.
From S2P Require Import Prelude PyRuntime Timing Speech Http JsonDumps Scripted.
Import ListNotations.
Local Open Scope string_scope.
Local Open Scope py_scope.

Section Handler.
Context `{SpeechSdk} `{JsonCodec}.

Record world : Type := mk_world {
  w_clock : clock_state;
  w_svc : svc_state
}.

Local Abbreviation M := (PyM world exn HttpResponse).

(** [time.perf_counter()] *)
Definition perf_counter : M Q :=
  fun w => let (t, c') := perf_counter_read (w_clock w) in
           (mk_world c' (w_svc w), Normal t).

(** [speech_synthesizer.speak_text_async(text).get()] *)
Definition speak_text_get (s : SpeechSynthesizer) (text : pyobj) : M SpeechSynthesisResult :=
  fun w => let (st', rep) := speak_text s text (w_svc w) in
           (mk_world (w_clock w) st',
            match rep with SdkRaised e => Raise e | SdkReturned r => Normal r end).

Definition msg_not_ready : string := "Erro critico: Sintetizador de fala nao inicializado.".
Definition msg_text_missing : string := dq ++ "text" ++ dq ++ " nao encontrado no JSON.".
Definition msg_invalid_json : string := "Corpo da requisicao JSON invalido.".
Definition msg_synthesis_error (r : ResultReason) : string := "Erro na sintese: " ++ reason_str r.
Definition msg_api_error (e : exn) : string := "Erro na API do Azure Speech: " ++ exn_str e.
Definition msg_success : string := "Audio gerado com sucesso.".

(** Lines 33-34. *)
Definition check_ready (synth : option SpeechSynthesizer) : M SpeechSynthesizer :=
  match synth with
  | None => return_ (http_response msg_not_ready 500)
  | Some s => ret s
  end.

(** [not req_body or 'text' not in req_body] (line 42): [in] is only
    evaluated when the body is truthy, and may raise. *)
Definition text_missing (req_body : pyobj) : M bool :=
  if negb (truthy req_body) then ret true
  else let! has := lift_exn (py_in "text" req_body) in ret (negb has).

(** Lines 39-48. *)
Definition read_text (req : HttpRequest) : M pyobj :=
  py_try
    (let! req_body := lift_exn (get_json req) in
     let! missing := text_missing req_body in
     if missing then return_ (http_response msg_text_missing 400)
     else lift_exn (py_get req_body "text"))
    ValueError
    (fun _ => return_ (http_response msg_invalid_json 400)).

(** The dict [response_data] of lines 67-73. *)
Definition response_data (api_call_duration_ms function_code_duration_ms : Q) : pyobj :=
  PDict [("message", PStr msg_success);
         ("metrics_internal",
           PDict [("api_call_duration_ms", PFloat (FFin (py_round2 api_call_duration_ms)));
                  ("function_code_duration_ms",
                    PFloat (FFin (py_round2 function_code_duration_ms)))])].

(** Lines 51-81. *)
Definition synthesize (s : SpeechSynthesizer) (text_to_synthesize : pyobj)
    (function_code_start_time : Q) : M Empty_set :=
  let! api_call_start := perf_counter in
  py_try
    (let! speech_synthesis_result := speak_text_get s text_to_synthesize in
     let! t_api := perf_counter in
     let api_call_duration_ms := duration_ms api_call_start t_api in
     if bool_decide (reason speech_synthesis_result <> SynthesizingAudioCompleted) then
       return_ (http_response (msg_synthesis_error (reason speech_synthesis_result)) 500)
     else
       let! t_end := perf_counter in
       let function_code_duration_ms := duration_ms function_code_start_time t_end in
       return_ (http_response_mime
                  (json_dumps (response_data api_call_duration_ms function_code_duration_ms))
                  200 "application/json"))
    Exception
    (fun e => return_ (http_response (msg_api_error e) 500)).

(** Lines 28-81. *)
Definition main_body (synth : option SpeechSynthesizer) (req : HttpRequest) : M Empty_set :=
  let! s := check_ready synth in
  let! function_code_start_time := perf_counter in
  let! text_to_synthesize := read_text req in
  synthesize s text_to_synthesize function_code_start_time.

Definition main (synth : option SpeechSynthesizer) (req : HttpRequest) (w : world)
    : world * (HttpResponse + exn) :=
  call (main_body synth req) w.

(** ** Running the blocks *)

(** The world after [n] more clock readings. *)
Definition advance (w : world) (n : nat) : world :=
  mk_world (mk_clock (clk (w_clock w)) (n + tick (w_clock w))) (w_svc w).

(** The [i]-th reading from now. *)
Definition reading (w : world) (i : nat) : Q := clk (w_clock w) (i + tick (w_clock w)).

Lemma perf_counter_run w : perf_counter w = (advance w 1, Normal (reading w 0)).
Proof. reflexivity. Qed.

Lemma advance_advance w m n : advance (advance w m) n = advance w (n + m).
Proof. unfold advance. cbn. rewrite Nat.add_assoc. reflexivity. Qed.

Lemma reading_advance w m i : reading (advance w m) i = reading w (i + m).
Proof. unfold reading, advance. cbn. rewrite Nat.add_assoc. reflexivity. Qed.

Lemma advance_0 w : advance w 0 = w.
Proof. destruct w as [[c k] st]. reflexivity. Qed.

(** What the first [try] produces, as a function of the decoded body. *)
Definition read_text_outcome (req : HttpRequest) : outcome exn HttpResponse pyobj :=
  match get_json req with
  | inl e => if isinstance e ValueError then Return (http_response msg_invalid_json 400)
             else Raise e
  | inr o =>
      if negb (truthy o) then Return (http_response msg_text_missing 400) else
      match py_in "text" o with
      | inl e => Raise e
      | inr false => Return (http_response msg_text_missing 400)
      | inr true => match py_get o "text" with inl e => Raise e | inr t => Normal t end
      end
  end.

Lemma py_in_not_ValueError k o e : py_in k o = inl e -> isinstance e ValueError = false.
Proof. intros Hin. destruct (py_in_raises k o e Hin) as [Hc _]. unfold isinstance. now rewrite Hc. Qed.

Lemma py_get_not_ValueError o k e : py_get o k = inl e -> isinstance e ValueError = false.
Proof. destruct o; cbn; intros He; inversion He; reflexivity. Qed.

(** [read_text] reads neither the clock nor the service. *)
Lemma read_text_run req w : read_text req w = (w, read_text_outcome req).
Proof.
  unfold read_text, read_text_outcome, py_try, try_except, text_missing.
  destruct (get_json req) as [e|o]; cbn; [destruct (isinstance e ValueError); reflexivity|].
  destruct (truthy o); cbn; [|reflexivity].
  destruct (py_in "text" o) as [e|[|]] eqn:Hin; cbn.
  - rewrite (py_in_not_ValueError _ _ _ Hin). reflexivity.
  - destruct (py_get o "text") as [e|t] eqn:Hg; cbn; [|reflexivity].
    rewrite (py_get_not_ValueError _ _ _ Hg). reflexivity.
  - reflexivity.
Qed.

(** [synthesize] reads the clock once before the call, calls the service
    once, and reads the clock once more on a returned result and a third
    time on success. *)
Lemma synthesize_run s text t0 w :
  synthesize s text t0 w =
    match speak_text s text (w_svc w) with
    | (st, SdkRaised e) =>
        (mk_world (w_clock (advance w 1)) st,
         if isinstance e Exception then Return (http_response (msg_api_error e) 500)
         else Raise e)
    | (st, SdkReturned r) =>
        if bool_decide (reason r <> SynthesizingAudioCompleted) then
          (mk_world (w_clock (advance w 2)) st,
           Return (http_response (msg_synthesis_error (reason r)) 500))
        else
          (mk_world (w_clock (advance w 3)) st,
           Return (http_response_mime
                     (json_dumps (response_data (duration_ms (reading w 0) (reading w 1))
                                                (duration_ms t0 (reading w 2))))
                     200 "application/json"))
    end.
Proof.
  unfold synthesize, py_try, try_except, bind at 1. rewrite perf_counter_run.
  unfold speak_text_get, bind. cbn [w_svc advance].
  destruct (speak_text s text (w_svc w)) as [st [e|r]]; [destruct (isinstance e Exception); reflexivity|].
  cbn. destruct (bool_decide _); reflexivity.
Qed.

(** [main] with a synthesizer: one clock reading, the first [try], then
    [synthesize] from the next reading. *)
Lemma main_run s req w :
  main (Some s) req w =
    match read_text_outcome req with
    | Normal t => end_call (synthesize s t (reading w 0) (advance w 1))
    | Return r => (advance w 1, inl r)
    | Raise e => (advance w 1, inr e)
    end.
Proof.
  unfold main, call, main_body, check_ready. rewrite bind_ret_l.
  unfold bind at 1. rewrite perf_counter_run.
  unfold bind at 1. rewrite read_text_run.
  destruct (read_text_outcome req); reflexivity.
Qed.

Lemma main_none req w : main None req w = (w, inl (http_response msg_not_ready 500)).
Proof. reflexivity. Qed.

Lemma read_text_outcome_return req r :
  read_text_outcome req = Return r ->
  r = http_response msg_invalid_json 400 \/ r = http_response msg_text_missing 400.
Proof.
  unfold read_text_outcome.
  destruct (get_json req) as [e|o]; [destruct (isinstance e ValueError)|];
    [intros H'; inversion H'; auto | discriminate |].
  destruct (truthy o); cbn; [|intros H'; inversion H'; auto].
  destruct (py_in "text" o) as [e|[|]]; [discriminate| |intros H'; inversion H'; auto].
  destruct (py_get o "text"); discriminate.
Qed.
End Handler.

(** ** The paths of [main]

    One constructor per way the handler can end, in the order of the
    source; [main_path_iff] shows that [main] ends exactly along them. *)

Section Paths.
Context `{SpeechSdk} `{JsonCodec}.

Definition success_response (w : world) : HttpResponse :=
  http_response_mime
    (json_dumps (response_data (duration_ms (reading w 1) (reading w 2))
                               (duration_ms (reading w 0) (reading w 3))))
    200 "application/json".

Inductive handler_path : option SpeechSynthesizer -> HttpRequest -> world ->
                         world -> HttpResponse + exn -> Prop :=
| path_not_ready req w :
    handler_path None req w w (inl (http_response msg_not_ready 500))
| path_read_returned s req w r :
    read_text_outcome req = Return r ->
    handler_path (Some s) req w (advance w 1) (inl r)
| path_read_raised s req w e :
    read_text_outcome req = Raise e ->
    handler_path (Some s) req w (advance w 1) (inr e)
| path_call_raised_caught s req w t st e :
    read_text_outcome req = Normal t ->
    speak_text s t (w_svc w) = (st, SdkRaised e) -> isinstance e Exception = true ->
    handler_path (Some s) req w (mk_world (w_clock (advance w 2)) st)
      (inl (http_response (msg_api_error e) 500))
| path_call_raised_escaping s req w t st e :
    read_text_outcome req = Normal t ->
    speak_text s t (w_svc w) = (st, SdkRaised e) -> isinstance e Exception = false ->
    handler_path (Some s) req w (mk_world (w_clock (advance w 2)) st) (inr e)
| path_not_completed s req w t st r :
    read_text_outcome req = Normal t ->
    speak_text s t (w_svc w) = (st, SdkReturned r) ->
    reason r <> SynthesizingAudioCompleted ->
    handler_path (Some s) req w (mk_world (w_clock (advance w 3)) st)
      (inl (http_response (msg_synthesis_error (reason r)) 500))
| path_completed s req w t st r :
    read_text_outcome req = Normal t ->
    speak_text s t (w_svc w) = (st, SdkReturned r) ->
    reason r = SynthesizingAudioCompleted ->
    handler_path (Some s) req w (mk_world (w_clock (advance w 4)) st)
      (inl (success_response w)).

Lemma main_follows_path synth req w : handler_path synth req w (fst (main synth req w)) (snd (main synth req w)).
Proof.
  destruct synth as [s|]; [|constructor].
  rewrite main_run. destruct (read_text_outcome req) as [t|r|e] eqn:E;
    [| now constructor | now constructor].
  unfold end_call. rewrite synthesize_run. cbn [w_svc advance].
  destruct (speak_text s t (w_svc w)) as [st [e|r]] eqn:Hs.
  - destruct (isinstance e Exception) eqn:He; cbn [fst snd end_call]; rewrite advance_advance.
    + eapply path_call_raised_caught; eassumption.
    + eapply path_call_raised_escaping; eassumption.
  - destruct (bool_decide_reflect (reason r <> SynthesizingAudioCompleted)) as [Hr|Hr];
      cbn [fst snd end_call]; rewrite advance_advance.
    + eapply path_not_completed; eassumption.
    + unfold success_response. rewrite !reading_advance.
      eapply path_completed; eauto. destruct (decide (reason r = SynthesizingAudioCompleted)); tauto.
Qed.

Lemma handler_path_functional synth req w w1 r1 w2 r2 :
  handler_path synth req w w1 r1 -> handler_path synth req w w2 r2 -> w1 = w2 /\ r1 = r2.
Proof.
  intros H1 H2. destruct H1; inversion H2; subst; split; congruence.
Qed.

(** [main] ends exactly along the paths. *)
Lemma main_path_iff synth req w w' res :
  main synth req w = (w', res) <-> handler_path synth req w w' res.
Proof.
  split.
  - intros Hm. pose proof (main_follows_path synth req w) as Hp. now rewrite Hm in Hp.
  - intros Hp. destruct (handler_path_functional _ _ _ _ _ _ _ Hp (main_follows_path synth req w))
      as [-> ->]. now destruct (main synth req w).
Qed.

Lemma read_text_outcome_raise req e :
  read_text_outcome req = Raise e ->
  (get_json req = inl e /\ isinstance e ValueError = false)
  \/ (exists o, get_json req = inr o /\ truthy o = true /\ py_in "text" o = inl e /\
                 exc_class e = TypeError)
  \/ (exists o, get_json req = inr o /\ py_in "text" o = inr true /\ py_get o "text" = inl e /\
                 exc_class e = AttributeError).
Proof.
  unfold read_text_outcome. destruct (get_json req) as [e'|o].
  - destruct (isinstance e' ValueError) eqn:Hv; intros Hr; inversion Hr; subst; auto.
  - destruct (truthy o) eqn:Ht; cbn; [|discriminate].
    destruct (py_in "text" o) as [e'|[|]] eqn:Hin; intros Hr; try discriminate.
    + inversion Hr; subst. right; left. exists o.
      repeat split; auto. exact (proj1 (py_in_raises _ _ _ Hin)).
    + destruct (py_get o "text") as [e'|t] eqn:Hg; inversion Hr; subst.
      right; right. exists o. repeat split; auto. exact (py_get_raises _ _ _ Hg).
Qed.

Lemma read_text_outcome_normal req t :
  read_text_outcome req = Normal t ->
  exists o, get_json req = inr o /\ py_in "text" o = inr true /\ py_get o "text" = inr t.
Proof.
  unfold read_text_outcome. destruct (get_json req) as [e|o] eqn:Hj;
    [destruct (isinstance e ValueError); discriminate|].
  destruct (truthy o); cbn; [|discriminate].
  destruct (py_in "text" o) as [e|[|]] eqn:Hin; try discriminate.
  destruct (py_get o "text") eqn:Hg; intros Hr; inversion Hr; subst. eauto.
Qed.

(** Only the completed path answers 200. *)
Lemma handler_path_200 synth req w w' resp :
  handler_path synth req w w' (inl resp) -> resp_status resp = 200%Z ->
  resp = success_response w /\ w_clock w' = w_clock (advance w 4).
Proof.
  intros Hp H200. inversion Hp; subst; try discriminate; auto.
  match goal with H : read_text_outcome _ = Return _ |- _ =>
    destruct (read_text_outcome_return _ _ H) as [->| ->]; discriminate end.
Qed.

Lemma reading_mono w i j :
  clock_monotone (w_clock w) -> (i <= j)%nat -> (reading w i <= reading w j)%Q.
Proof. intros Hm Hij. unfold reading. apply Hm. lia. Qed.

(** The two durations of the 200 answer are ordered when the clock is
    monotonic. *)
Lemma success_response_ordered w :
  clock_monotone (w_clock w) ->
  exists api func,
    success_response w = http_response_mime (json_dumps (response_data api func)) 200 "application/json" /\
    (0 <= round2_cents api <= round2_cents func)%Z.
Proof.
  intros Hmono. eexists _, _. split; [reflexivity|].
  pose proof (reading_mono w 0 1 Hmono ltac:(lia)).
  pose proof (reading_mono w 1 2 Hmono ltac:(lia)).
  pose proof (reading_mono w 2 3 Hmono ltac:(lia)).
  split; auto with py.
Qed.


End Paths.

(** ** Properties of [main] *)

Section Properties.
Context `{SpeechSdk} `{JsonCodec}.

(** When the body holds ['text'], [main] goes on with [synthesize] on
    that text, one clock reading later. *)
Lemma main_text_extracted s req w o t :
  get_json req = inr o -> py_in "text" o = inr true -> py_get o "text" = inr t ->
  main (Some s) req w = end_call (synthesize s t (reading w 0) (advance w 1)).
Proof.
  intros Hj Hin Hg. rewrite main_run. unfold read_text_outcome.
  rewrite Hj, (py_in_true_truthy "text" o ltac:(intros Heq; discriminate Heq) Hin), Hin, Hg. reflexivity.
Qed.

(** C1: a request whose JSON body holds ['text'], served by a ready
    synthesizer whose call completes, is answered 200 with
    [application/json] and the JSON of [response_data]: the call measured
    from the second to the third clock reading, the function from the
    first to the fourth.  The clock is read four times and the service
    state is the one the call left. *)
Theorem main_success s req w o t st r :
  get_json req = inr o -> py_in "text" o = inr true -> py_get o "text" = inr t ->
  speak_text s t (w_svc w) = (st, SdkReturned r) ->
  reason r = SynthesizingAudioCompleted ->
  main (Some s) req w =
    (mk_world (w_clock (advance w 4)) st,
     inl (http_response_mime
            (json_dumps (response_data (duration_ms (reading w 1) (reading w 2))
                                       (duration_ms (reading w 0) (reading w 3))))
            200 "application/json")).
Proof.
  intros Hj Hin Hg Hs Hr. rewrite (main_text_extracted s req w o t Hj Hin Hg).
  rewrite synthesize_run. cbn [w_svc advance]. rewrite Hs, Hr.
  rewrite bool_decide_false by congruence.
  rewrite !reading_advance, advance_advance. reflexivity.
Qed.

(** C3: when the module failed to build the synthesizer, every request
    is answered 500 with the fixed message, whatever its body, and the
    handler neither reads the clock nor calls the service. *)
Theorem main_not_initialized req w :
  main None req w = (w, inl (http_response msg_not_ready 500)).
Proof. apply main_none. Qed.

(** C4: a body that [get_json] rejects with a [ValueError] (malformed
    JSON, or bytes that are not UTF-8) is answered 400 with the fixed
    message, after one clock reading and no call to the service. *)
Theorem main_invalid_json s req w e :
  get_json req = inl e -> isinstance e ValueError = true ->
  main (Some s) req w = (advance w 1, inl (http_response msg_invalid_json 400)).
Proof. intros Hj Hv. rewrite main_run. unfold read_text_outcome. now rewrite Hj, Hv. Qed.

(** C5: a JSON body that is falsy ([{}], [[]], [""], [0], [null], ...)
    or in which ['text'] is not found is answered 400 with the fixed
    message, after one clock reading and no call to the service. *)
Theorem main_text_missing s req w o :
  get_json req = inr o -> (truthy o = false \/ py_in "text" o = inr false) ->
  main (Some s) req w = (advance w 1, inl (http_response msg_text_missing 400)).
Proof.
  intros Hj Hm. rewrite main_run. unfold read_text_outcome. rewrite Hj.
  destruct (truthy o) eqn:Ht; [|reflexivity].
  destruct Hm as [Hf|Hin]; [discriminate | now rewrite Hin].
Qed.

(** C6: when the call to the service raises an [Exception], the answer
    is 500 with ["Erro na API do Azure Speech: "] followed by [str(e)];
    the clock was read twice. *)
Theorem main_api_exception s req w o t st e :
  get_json req = inr o -> py_in "text" o = inr true -> py_get o "text" = inr t ->
  speak_text s t (w_svc w) = (st, SdkRaised e) -> isinstance e Exception = true ->
  main (Some s) req w =
    (mk_world (w_clock (advance w 2)) st, inl (http_response (msg_api_error e) 500)).
Proof.
  intros Hj Hin Hg Hs He. rewrite (main_text_extracted s req w o t Hj Hin Hg).
  rewrite synthesize_run. cbn [w_svc advance]. rewrite Hs, He.
  rewrite advance_advance. reflexivity.
Qed.

(** C7: when the call returns a result whose reason is not
    [SynthesizingAudioCompleted], the answer is 500 with
    ["Erro na sintese: ResultReason.<name>"]; this path does not go
    through the [except] clause, and the clock was read three times. *)
Theorem main_synthesis_failed s req w o t st r :
  get_json req = inr o -> py_in "text" o = inr true -> py_get o "text" = inr t ->
  speak_text s t (w_svc w) = (st, SdkReturned r) ->
  reason r <> SynthesizingAudioCompleted ->
  main (Some s) req w =
    (mk_world (w_clock (advance w 3)) st,
     inl (http_response (msg_synthesis_error (reason r)) 500)).
Proof.
  intros Hj Hin Hg Hs Hr. rewrite (main_text_extracted s req w o t Hj Hin Hg).
  rewrite synthesize_run. cbn [w_svc advance]. rewrite Hs.
  rewrite bool_decide_true by exact Hr. rewrite advance_advance. reflexivity.
Qed.

(** C2: under a monotonic clock, every 200 answer carries the JSON of
    [response_data] with two durations whose rounded values satisfy
    [0 <= api_call_duration_ms <= function_code_duration_ms]. *)
Theorem main_metrics_ordered synth req w w' resp :
  clock_monotone (w_clock w) ->
  main synth req w = (w', inl resp) -> resp_status resp = 200%Z ->
  exists api func,
    resp = http_response_mime (json_dumps (response_data api func)) 200 "application/json" /\
    (0 <= round2_cents api <= round2_cents func)%Z.
Proof.
  intros Hmono Hm H200. apply main_path_iff in Hm.
  destruct (handler_path_200 _ _ _ _ _ Hm H200) as [-> _].
  exact (success_response_ordered w Hmono).
Qed.

(** C8: with a ready synthesizer, an exception escapes [main] (and
    reaches the Azure host) exactly in four cases: a decoding error that
    is not a [ValueError]; the [TypeError] of [in] on a truthy body that is
    not a container; the [AttributeError] of [.get] on a body that is not
    a dict but contains ['text']; an exception raised by the call on the
    extracted text that is not an [Exception] (e.g. [KeyboardInterrupt]). *)
Theorem main_escaping_exceptions s req w e :
  (exists w', main (Some s) req w = (w', inr e)) <->
  (get_json req = inl e /\ isinstance e ValueError = false)
  \/ (exists o, get_json req = inr o /\ truthy o = true /\ py_in "text" o = inl e /\
                 exc_class e = TypeError)
  \/ (exists o, get_json req = inr o /\ py_in "text" o = inr true /\ py_get o "text" = inl e /\
                 exc_class e = AttributeError)
  \/ (exists o t st, get_json req = inr o /\ py_in "text" o = inr true /\
                      py_get o "text" = inr t /\
                      speak_text s t (w_svc w) = (st, SdkRaised e) /\
                      isinstance e Exception = false).
Proof.
  split.
  - intros [w' Hm]. apply main_path_iff in Hm. inversion Hm; subst.
    + match goal with H : read_text_outcome _ = Raise _ |- _ =>
        destruct (read_text_outcome_raise _ _ H) as [?|[?|?]]; tauto end.
    + right; right; right.
      match goal with H : read_text_outcome _ = Normal _ |- _ =>
        destruct (read_text_outcome_normal _ _ H) as (o & Hj & Hin & Hg) end.
      eauto 10.
  - intros [[Hj Hv]|[(o & Hj & Ht & Hin & _)|[(o & Hj & Hin & Hg & _)|(o & t & st & Hj & Hin & Hg & Hs & He)]]].
    + rewrite main_run. unfold read_text_outcome. rewrite Hj, Hv. eexists; reflexivity.
    + rewrite main_run. unfold read_text_outcome. rewrite Hj, Ht, Hin. eexists; reflexivity.
    + rewrite main_run. unfold read_text_outcome.
      rewrite Hj, (py_in_true_truthy "text" o ltac:(intros Heq; discriminate Heq) Hin), Hin, Hg.
      eexists; reflexivity.
    + rewrite (main_text_extracted s req w o t Hj Hin Hg), synthesize_run.
      cbn [w_svc advance]. rewrite Hs, He. eexists; reflexivity.
Qed.

(** C9: a JSON body that is truthy but not a container ([5], [true],
    [1.5], [NaN]) makes [in] raise [TypeError] inside the first [try];
    [except ValueError] does not catch it and it escapes [main]. *)
Theorem main_scalar_body_escapes s req w o :
  get_json req = inr o -> truthy o = true -> iterable o = false ->
  main (Some s) req w =
    (advance w 1, inr (mk_exn TypeError ("argument of type '" ++ type_name o ++ "' is not iterable"))).
Proof.
  intros Hj Ht Hi. rewrite main_run. unfold read_text_outcome.
  now rewrite Hj, Ht, (py_in_not_iterable _ _ Hi).
Qed.

(** C10: a JSON body that is not a dict but in which ['text'] is found
    (a list holding the string ["text"], or a string containing
    ["text"] as a substring) makes [req_body.get] raise
    [AttributeError], which escapes [main]. *)
Theorem main_text_in_non_dict_escapes s req w o :
  get_json req = inr o -> py_in "text" o = inr true -> (forall kvs, o <> PDict kvs) ->
  main (Some s) req w =
    (advance w 1, inr (mk_exn AttributeError ("'" ++ type_name o ++ "' object has no attribute 'get'"))).
Proof.
  intros Hj Hin Hd. rewrite main_run. unfold read_text_outcome.
  rewrite Hj, (py_in_true_truthy "text" o ltac:(intros Heq; discriminate Heq) Hin), Hin.
  now rewrite (py_get_not_dict _ _ Hd).
Qed.

(** C11: every response [main] returns has status 200 with mimetype
    [application/json], or status 400 or 500 with [text/plain]. *)
Theorem main_response_statuses synth req w w' resp :
  main synth req w = (w', inl resp) ->
  (resp_status resp = 200%Z /\ resp_mimetype resp = "application/json") \/
  ((resp_status resp = 400%Z \/ resp_status resp = 500%Z) /\ resp_mimetype resp = "text/plain").
Proof.
  intros Hm. apply main_path_iff in Hm. inversion Hm; subst; cbn; auto.
  match goal with H : read_text_outcome _ = Return _ |- _ =>
    destruct (read_text_outcome_return _ _ H) as [->| ->]; cbn; auto end.
Qed.

(** C12: [main] calls the service at most once and never retries: the
    service state afterwards is the initial one, or the one left by a
    single call on the extracted text; the clock is read at most once
    when the service is not called and two to four times when it is. *)
Theorem main_single_service_call synth req w w' res :
  main synth req w = (w', res) ->
  clk (w_clock w') = clk (w_clock w) /\
  ((w_svc w' = w_svc w /\ (tick (w_clock w') <= 1 + tick (w_clock w))%nat)
   \/ (exists s o t, synth = Some s /\ get_json req = inr o /\ py_get o "text" = inr t /\
                     w_svc w' = fst (speak_text s t (w_svc w)) /\
                     (2 + tick (w_clock w) <= tick (w_clock w') <= 4 + tick (w_clock w))%nat)).
Proof.
  intros Hm. apply main_path_iff in Hm.
  inversion Hm; subst; cbn; split; auto;
    try (left; split; [reflexivity | lia]);
    right; match goal with H : read_text_outcome _ = Normal _ |- _ =>
      destruct (read_text_outcome_normal _ _ H) as (o & Hj & _ & Hg) end;
    exists s, o, t; repeat split; auto;
    match goal with H : speak_text _ _ _ = _ |- _ => rewrite H; reflexivity || lia end.
Qed.

(** C16: the numbers [main] reports under [metrics_internal] are the
    measured durations rounded to two decimals: multiples of 0.01 within
    0.005 of the exact values. *)
Theorem response_data_rounding api func :
  exists a f,
    response_data api func =
      PDict [("message", PStr msg_success);
             ("metrics_internal",
               PDict [("api_call_duration_ms", PFloat (FFin (Qmake a 100)));
                      ("function_code_duration_ms", PFloat (FFin (Qmake f 100)))])] /\
    (Qmake a 100 - (1#200) <= api <= Qmake a 100 + (1#200))%Q /\
    (Qmake f 100 - (1#200) <= func <= Qmake f 100 + (1#200))%Q.
Proof.
  exists (round2_cents api), (round2_cents func). split; [reflexivity|].
  split; apply py_round2_close.
Qed.
End Properties.

(** ** Scenarios *)

#[local] Existing Instances scripted_sdk table_codec.

Definition synth0 : SpeechSynthesizer :=
  mk_synthesizer (mk_speech_config (Some "key") (Some "brazilsouth") (Some "pt-BR-FranciscaNeural"))
                 (mk_audio_config false None).

(** The clock of the spec's scenario: the handler starts at 0 s, the call
    starts 1 ms later and lasts 120 ms, the handler ends 2 ms after it. *)
Definition clock_ola (i : nat) : Q :=
  match i with 0 => 0 | 1 => (1#1000) | 2 => (121#1000) | _ => (123#1000) end.

Definition world_clock (c : nat -> Q) (replies : list sdk_reply) : world :=
  mk_world (mk_clock c 0) replies.

Definition world_with (replies : list sdk_reply) : world := world_clock clock_ola replies.

Definition completed : sdk_reply := SdkReturned (mk_result SynthesizingAudioCompleted []).

Lemma main_success_witness :
  main (Some synth0) (request_with body_ola) (world_with [completed]) =
    (mk_world (w_clock (advance (world_with [completed]) 4)) [],
     inl (http_response_mime
            (json_dumps (response_data (duration_ms (1#1000) (121#1000))
                                       (duration_ms 0 (123#1000))))
            200 "application/json")).
Proof.
  apply (@main_success scripted_sdk table_codec synth0 (request_with body_ola) (world_with [completed]) (PDict [("text", PStr "Olá mundo")]) (PStr "Olá mundo") []
           (mk_result SynthesizingAudioCompleted [])); reflexivity.
Defined.

(** The body of the scenario, as the bytes [json.dumps] writes. *)
Example main_success_body :
  snd (main (Some synth0) (request_with body_ola) (world_with [completed])) =
    inl (http_response_mime
           ("{" ++ dq ++ "message" ++ dq ++ ": " ++ dq ++ "Audio gerado com sucesso." ++ dq ++ ", "
            ++ dq ++ "metrics_internal" ++ dq ++ ": {" ++ dq ++ "api_call_duration_ms" ++ dq
            ++ ": 120.0, " ++ dq ++ "function_code_duration_ms" ++ dq ++ ": 123.0}}")
           200 "application/json").
Proof. vm_compute. reflexivity. Qed.

Lemma main_invalid_json_witness :
  main (Some synth0) (request_with body_not_json) (world_with [completed]) =
    (advance (world_with [completed]) 1, inl (http_response msg_invalid_json 400)).
Proof.
  apply (@main_invalid_json scripted_sdk table_codec synth0 (request_with body_not_json) (world_with [completed]) (mk_exn JSONDecodeError "Expecting value: line 1 column 1 (char 0)"));
    reflexivity.
Defined.

Lemma main_text_missing_witness :
  main (Some synth0) (request_with body_empty_object) (world_with [completed]) =
    (advance (world_with [completed]) 1, inl (http_response msg_text_missing 400)).
Proof. apply (@main_text_missing scripted_sdk table_codec synth0 (request_with body_empty_object) (world_with [completed]) (PDict [])); [reflexivity | left; reflexivity]. Defined.

Definition timeout_error : exn := mk_exn RuntimeError "Timeout while synthesizing".

Lemma main_api_exception_witness :
  main (Some synth0) (request_with body_ola) (world_with [SdkRaised timeout_error]) =
    (mk_world (w_clock (advance (world_with [SdkRaised timeout_error]) 2)) [],
     inl (http_response (msg_api_error timeout_error) 500)).
Proof.
  apply (@main_api_exception scripted_sdk table_codec synth0 (request_with body_ola) (world_with [SdkRaised timeout_error]) (PDict [("text", PStr "Olá mundo")]) (PStr "Olá mundo"));
    reflexivity.
Defined.

Lemma main_synthesis_failed_witness :
  main (Some synth0) (request_with body_ola) (world_with [SdkReturned (mk_result Canceled [])]) =
    (mk_world (w_clock (advance (world_with [SdkReturned (mk_result Canceled [])]) 3)) [],
     inl (http_response (msg_synthesis_error Canceled) 500)).
Proof.
  apply (@main_synthesis_failed scripted_sdk table_codec synth0 (request_with body_ola) (world_with [SdkReturned (mk_result Canceled [])]) (PDict [("text", PStr "Olá mundo")]) (PStr "Olá mundo") []
           (mk_result Canceled [])); try reflexivity; discriminate.
Defined.

(** 1 ms between two clock readings. *)
Definition clock_ms (i : nat) : Q := Qmake (Z.of_nat i) 1000.

Lemma main_metrics_ordered_witness :
  clock_monotone (mk_clock clock_ms 0) /\
  exists api func,
    inl (http_response_mime (json_dumps (response_data api func)) 200 "application/json")
      = snd (main (Some synth0) (request_with body_ola) (world_clock clock_ms [completed]))
    /\ (0 <= round2_cents api <= round2_cents func)%Z.
Proof.
  assert (Hmono : clock_monotone (mk_clock clock_ms 0))
    by (intros i j Hij; unfold Qle; simpl; lia).
  split; [exact Hmono|].
  destruct (@main_metrics_ordered scripted_sdk table_codec (Some synth0) (request_with body_ola)
              (world_clock clock_ms [completed])
              (fst (main (Some synth0) (request_with body_ola) (world_clock clock_ms [completed])))
              (success_response (world_clock clock_ms [completed])) Hmono)
    as (api & func & Heq & Hb); [reflexivity | reflexivity |].
  exists api, func. split; [rewrite <- Heq; reflexivity | exact Hb].
Defined.

Definition interrupt : exn := mk_exn KeyboardInterrupt "".

Lemma main_escaping_exceptions_witness :
  exists w', main (Some synth0) (request_with body_ola) (world_with [SdkRaised interrupt]) =
               (w', inr interrupt).
Proof.
  apply (proj2 (@main_escaping_exceptions scripted_sdk table_codec synth0 (request_with body_ola)
                  (world_with [SdkRaised interrupt]) interrupt)).
  right; right; right. exists (PDict [("text", PStr "Olá mundo")]), (PStr "Olá mundo"), [].
  repeat split; reflexivity.
Defined.

Lemma main_scalar_body_escapes_witness :
  main (Some synth0) (request_with body_int) (world_with [completed]) =
    (advance (world_with [completed]) 1,
     inr (mk_exn TypeError "argument of type 'int' is not iterable")).
Proof. apply (@main_scalar_body_escapes scripted_sdk table_codec synth0 _ _ (PInt 5)); reflexivity. Defined.

Lemma main_text_in_non_dict_escapes_witness :
  main (Some synth0) (request_with body_list_text) (world_with [completed]) =
    (advance (world_with [completed]) 1,
     inr (mk_exn AttributeError "'list' object has no attribute 'get'")).
Proof.
  apply (@main_text_in_non_dict_escapes scripted_sdk table_codec synth0 _ _ (PList [PStr "text"]));
    [reflexivity | reflexivity | intros kvs Heq; discriminate Heq].
Defined.

(** The string body ["context"] contains ["text"] as a substring. *)
Example main_str_context_escapes :
  snd (main (Some synth0) (request_with body_str_context) (world_with [completed])) =
    inr (mk_exn AttributeError "'str' object has no attribute 'get'").
Proof. vm_compute. reflexivity. Qed.

Lemma main_response_statuses_witness :
  resp_status (http_response msg_text_missing 400) = 400%Z /\
  resp_mimetype (http_response msg_text_missing 400) = "text/plain".
Proof.
  destruct (@main_response_statuses scripted_sdk table_codec (Some synth0) (request_with body_empty_object)
              (world_with [completed]) (advance (world_with [completed]) 1)
              (http_response msg_text_missing 400) eq_refl) as [[H _]|[[H|H] Hm]];
    [discriminate H | split; [exact H | exact Hm] | discriminate H].
Defined.

Lemma main_single_service_call_witness :
  w_svc (fst (main (Some synth0) (request_with body_ola) (world_with [completed; completed])))
    = [completed].
Proof.
  destruct (@main_single_service_call scripted_sdk table_codec (Some synth0) (request_with body_ola)
              (world_with [completed; completed]) _ _ (surjective_pairing _)) as [_ [[Hs _]|H]].
  - discriminate Hs.
  - destruct H as (s & o & t & Hs & Hj & Hg & Hw & _). rewrite Hw. reflexivity.
Defined.
