(* ===== verification/HandlerSpec.v ===== *)
(** * The contract of the spec (section 4.2) and the refinement by [main]

    The spec describes the handler as a linear machine: readiness check,
    timing start, body parse (malformed: 400; valid but without ['text']:
    400), the blocking call (any exception: 500), the result check (not
    completed: 500), the success response.  [spec_step] writes that
    machine as a step relation over configurations [phase * world], with
    the spec's classification of bodies [spec_parse].  The theorems show
    that the machine always finishes, that it is deterministic, and that
    [main] ends exactly where the machine ends on the requests the spec
    foresees ([spec_domain]: decoding errors are [ValueError]s, a truthy
    body is a container, and ['text'] is only found in a dict) and the
    services whose exceptions are [Exception]s.  Outside that domain the
    theorems [main_scalar_body_escapes] and [main_text_in_non_dict_escapes]
    of [Handler] show where the code leaves the contract.
 *)

From Stdlib Require Import String List ZArith QArith Lia.
From stdpp Require Import base decidable.
From S2P Require Import Prelude PyRuntime Timing Speech Http JsonDumps Scripted Handler.
Import ListNotations.
Local Open Scope string_scope.

(** What step 3 of the spec makes of a body. *)
Inductive body_class : Type :=
| BodyMalformed
| BodyMissingText
| BodyText (t : pyobj).

Section Machine.
Context `{SpeechSdk} `{JsonCodec}.

Definition spec_parse (req : HttpRequest) : body_class :=
  match get_json req with
  | inl _ => BodyMalformed
  | inr (PDict kvs) => match dict_lookup "text" kvs with
                       | Some t => BodyText t
                       | None => BodyMissingText
                       end
  | inr _ => BodyMissingText
  end.

Inductive phase : Type :=
| Received
| Started (s : SpeechSynthesizer) (t0 : Q)
| Parsed (s : SpeechSynthesizer) (t0 : Q) (text : pyobj)
| Returned (s : SpeechSynthesizer) (t0 t1 : Q) (r : SpeechSynthesisResult)
| Finished (res : HttpResponse + exn).

Definition config : Type := (phase * world)%type.

Inductive spec_step (synth : option SpeechSynthesizer) (req : HttpRequest) : config -> config -> Prop :=
| sp_not_ready w :
    synth = None ->
    spec_step synth req (Received, w) (Finished (inl (http_response msg_not_ready 500)), w)
| sp_start s w :
    synth = Some s ->
    spec_step synth req (Received, w) (Started s (reading w 0), advance w 1)
| sp_malformed s t0 w :
    spec_parse req = BodyMalformed ->
    spec_step synth req (Started s t0, w) (Finished (inl (http_response msg_invalid_json 400)), w)
| sp_missing s t0 w :
    spec_parse req = BodyMissingText ->
    spec_step synth req (Started s t0, w) (Finished (inl (http_response msg_text_missing 400)), w)
| sp_parsed s t0 t w :
    spec_parse req = BodyText t ->
    spec_step synth req (Started s t0, w) (Parsed s t0 t, w)
| sp_call_raised s t0 t w st e :
    speak_text s t (w_svc w) = (st, SdkRaised e) ->
    spec_step synth req (Parsed s t0 t, w)
      (Finished (inl (http_response (msg_api_error e) 500)), mk_world (w_clock (advance w 1)) st)
| sp_call_returned s t0 t w st r :
    speak_text s t (w_svc w) = (st, SdkReturned r) ->
    spec_step synth req (Parsed s t0 t, w)
      (Returned s t0 (reading w 0) r, mk_world (w_clock (advance w 1)) st)
| sp_not_completed s t0 t1 r w :
    reason r <> SynthesizingAudioCompleted ->
    spec_step synth req (Returned s t0 t1 r, w)
      (Finished (inl (http_response (msg_synthesis_error (reason r)) 500)), advance w 1)
| sp_completed s t0 t1 r w :
    reason r = SynthesizingAudioCompleted ->
    spec_step synth req (Returned s t0 t1 r, w)
      (Finished (inl (http_response_mime
                        (json_dumps (response_data (duration_ms t1 (reading w 0))
                                                   (duration_ms t0 (reading w 1))))
                        200 "application/json")),
       advance w 2).

Definition is_finished (c : config) : bool :=
  match fst c with Finished _ => true | _ => false end.

(** Steps left before the machine finishes: the machine never goes back. *)
Definition rank (p : phase) : nat :=
  match p with
  | Received => 4 | Started _ _ => 3 | Parsed _ _ _ => 2 | Returned _ _ _ _ => 1
  | Finished _ => 0
  end.

(** The requests the spec's table foresees. *)
Definition spec_domain (req : HttpRequest) : Prop :=
  (forall e, get_json req = inl e -> isinstance e ValueError = true) /\
  (forall o, get_json req = inr o -> truthy o = true ->
     iterable o = true /\ (py_in "text" o = inr true -> exists kvs, o = PDict kvs)).

(** The service raises only [Exception]s from the state [st]. *)
Definition service_raises_exceptions (s : SpeechSynthesizer) (st : svc_state) : Prop :=
  forall t st' e, speak_text s t st = (st', SdkRaised e) -> isinstance e Exception = true.

(** ** Lemmas *)

Lemma spec_step_rank synth req c c' : spec_step synth req c c' -> rank (fst c') < rank (fst c).
Proof. intros Hs. destruct Hs; cbn; lia. Qed.

Lemma spec_step_functional synth req c c1 c2 :
  spec_step synth req c c1 -> spec_step synth req c c2 -> c1 = c2.
Proof. intros H1 H2. destruct H1; inversion H2; subst; congruence. Qed.

Lemma finished_irred synth req res w : irred (spec_step synth req) (Finished res, w).
Proof. intros c Hs. inversion Hs. Qed.

(** Every configuration that is not finished can step. *)
Lemma spec_step_progress synth req c :
  is_finished c = false -> exists c', spec_step synth req c c'.
Proof.
  destruct c as [[| s t0 | s t0 t | s t0 t1 r | res] w]; cbn; intros Hf; try discriminate.
  - destruct synth as [s|]; eexists; [eapply sp_start | eapply sp_not_ready]; reflexivity.
  - destruct (spec_parse req) as [| |t] eqn:Hp; eexists;
      [eapply sp_malformed | eapply sp_missing | eapply sp_parsed]; exact Hp.
  - destruct (speak_text s t (w_svc w)) as [st [e|r]] eqn:Hsp; eexists;
      [eapply sp_call_raised | eapply sp_call_returned]; exact Hsp.
  - destruct (decide (reason r = SynthesizingAudioCompleted)) as [Hr|Hr]; eexists;
      [eapply sp_completed | eapply sp_not_completed]; exact Hr.
Qed.

(** On the spec's domain, the first [try] computes the spec's classification. *)
Lemma read_text_outcome_spec req :
  spec_domain req ->
  read_text_outcome req =
    match spec_parse req with
    | BodyMalformed => Return (http_response msg_invalid_json 400)
    | BodyMissingText => Return (http_response msg_text_missing 400)
    | BodyText t => Normal t
    end.
Proof.
  intros [Hval Hbody]. unfold read_text_outcome, spec_parse.
  destruct (get_json req) as [e|o] eqn:Hj; [now rewrite (Hval e eq_refl)|].
  destruct (truthy o) eqn:Ht; cbn.
  - destruct (Hbody o eq_refl Ht) as [Hit Hdict].
    destruct (py_in "text" o) as [e|[|]] eqn:Hin.
    + destruct o; discriminate.
    + destruct (Hdict eq_refl) as [kvs ->]. cbn in Hin |- *.
      unfold dict_contains in Hin. destruct (dict_lookup "text" kvs); [reflexivity | discriminate].
    + destruct o as [| | | | | |kvs]; try reflexivity. cbn in Hin. unfold dict_contains in Hin.
      destruct (dict_lookup "text" kvs); [discriminate | reflexivity].
  - destruct o as [| | | | | |kvs]; try reflexivity. destruct kvs; [reflexivity | discriminate].
Qed.
End Machine.

Section Refinement.
Context `{SpeechSdk} `{JsonCodec}.

(** The spec's machine is linear and always finishes: from every
    configuration it reaches a finished one, in at most four steps. *)
Lemma spec_machine_terminates synth req c :
  exists c', star (spec_step synth req) c c' /\ is_finished c' = true /\
             (rank (fst c) <= 4)%nat.
Proof.
  assert (Hrk : forall n c, (rank (fst c) <= n)%nat ->
                exists c', star (spec_step synth req) c c' /\ is_finished c' = true).
  { induction n as [|n IH]; intros c0 Hn;
      destruct (is_finished c0) eqn:Hf; try (exists c0; split; [apply star_refl | exact Hf]).
    - destruct c0 as [[] w]; cbn in *; discriminate || lia.
    - destruct (spec_step_progress synth req c0 Hf) as [c1 Hs].
      pose proof (spec_step_rank _ _ _ _ Hs).
      destruct (IH c1 ltac:(lia)) as (c2 & Hst & Hf2).
      exists c2. split; [eapply star_step; eauto | exact Hf2]. }
  destruct (Hrk 4 c) as (c' & Hst & Hf); [destruct c as [[] w]; cbn; lia|].
  exists c'. repeat split; auto. destruct c as [[] w]; cbn; lia.
Qed.

(** [main]'s run, read as a run of the spec's machine. *)
Lemma main_spec_run synth req w :
  spec_domain req ->
  (forall s, synth = Some s -> service_raises_exceptions s (w_svc w)) ->
  star (spec_step synth req) (Received, w) (Finished (snd (main synth req w)), fst (main synth req w)).
Proof.
  intros Hdom Hsvc. destruct synth as [s|]; [|apply star_one; now constructor].
  eapply star_step; [now apply sp_start|].
  rewrite main_run, (read_text_outcome_spec req Hdom).
  destruct (spec_parse req) as [| |t] eqn:Hp.
  - apply star_one. now apply sp_malformed.
  - apply star_one. now apply sp_missing.
  - eapply star_step; [eapply sp_parsed; exact Hp|].
    unfold end_call. rewrite synthesize_run. cbn [w_svc advance].
    destruct (speak_text s t (w_svc w)) as [st [e|r]] eqn:Hsp.
    + rewrite (Hsvc s eq_refl t st e Hsp). apply star_one. now apply sp_call_raised.
    + eapply star_step; [eapply sp_call_returned; exact Hsp|].
      destruct (bool_decide_reflect (reason r <> SynthesizingAudioCompleted)) as [Hr|Hr].
      * apply star_one. now apply sp_not_completed.
      * apply star_one. apply sp_completed.
        destruct (decide (reason r = SynthesizingAudioCompleted)); tauto.
Qed.

(** C15: refinement.  On the requests the spec's table foresees, and for
    a service that raises only [Exception]s, [main] ends with result
    [res] in world [w'] exactly when the spec's machine, started on the
    request, finishes with [res] in [w']. *)
Theorem main_refines_spec synth req w w' res :
  spec_domain req ->
  (forall s, synth = Some s -> service_raises_exceptions s (w_svc w)) ->
  main synth req w = (w', res) <->
  star (spec_step synth req) (Received, w) (Finished res, w').
Proof.
  intros Hdom Hsvc. pose proof (main_spec_run synth req w Hdom Hsvc) as Hrun.
  split.
  - intros Hm. now rewrite Hm in Hrun.
  - intros Hst.
    assert (Heq : (Finished res, w') = (Finished (snd (main synth req w)), fst (main synth req w)))
      by (eapply star_irred_unique; eauto using spec_step_functional, finished_irred).
    injection Heq as -> ->. now destruct (main synth req w).
Qed.
End Refinement.

(** ** Scenarios *)

#[local] Existing Instances scripted_sdk table_codec.

Lemma main_refines_spec_witness :
  star (spec_step (Some synth0) (request_with body_ola)) (Received, world_with [completed])
       (Finished (snd (main (Some synth0) (request_with body_ola) (world_with [completed]))),
        fst (main (Some synth0) (request_with body_ola) (world_with [completed]))).
Proof.
  assert (Hdom : spec_domain (request_with body_ola)).
  { split.
    - intros e He. vm_compute in He. discriminate He.
    - intros o Ho _. vm_compute in Ho. injection Ho as <-.
      split; [reflexivity | intros _; eexists; reflexivity]. }
  assert (Hsvc : forall s, Some synth0 = Some s ->
                 service_raises_exceptions s (w_svc (world_with [completed]))).
  { intros s _ t st e Hsp. vm_compute in Hsp. discriminate Hsp. }
  apply (proj1 (@main_refines_spec scripted_sdk table_codec (Some synth0) (request_with body_ola)
                  (world_with [completed]) _ _ Hdom Hsvc)).
  apply surjective_pairing.
Defined.
